(** * FactChat minimal client: routing, payload building, response normalisation

    A shallow embedding of [factchat_client_min.py] (class [FactChatClient]
    and the [LLMResponse] dataclass) together with the properties of its
    routing table, payload builder, response normaliser and constructor,
    and of the standalone script [test_factchat.py].

    Conventions of the embedding.
    - A Python [str] is a [string]; [str.lower] is the ASCII case mapping
      (the only letters the routing prefixes contain are ASCII, and no
      non-ASCII character lower-cases to one of them).
    - A Python exception is a value of [exn]; a call that may raise returns
      a [result].
    - A [dict] is an association list in insertion order with unique keys. *)

From Stdlib Require Import String Ascii List ZArith NArith Bool Lia.
From Stdlib Require Import Numbers.DecimalString.
Import ListNotations.
Open Scope string_scope.

Set Implicit Arguments.
Set Warnings "-register-all".

(** ** Exceptions and results *)

Inductive exn : Type :=
| ValueError (msg : string)
| RuntimeError (msg : string)
| TypeError
| AttributeError
| KeyError
| IndexError
| HTTPError (status : Z)
| RequestException
| JSONDecodeError.

Inductive result (A : Type) : Type :=
| Ok (a : A)
| Raise (e : exn).

Arguments Ok {A} a.
Arguments Raise {A} e.

Definition bind {A B : Type} (r : result A) (k : A -> result B) : result B :=
  match r with
  | Ok a => k a
  | Raise e => Raise e
  end.

(** ** Strings *)

Module Str.

Definition is_upper (c : ascii) : bool :=
  ((65 <=? N_of_ascii c) && (N_of_ascii c <=? 90))%N.

Definition lower_char (c : ascii) : ascii :=
  if is_upper c then ascii_of_N (N_of_ascii c + 32) else c.

(** [s.lower()] *)
Fixpoint lower (s : string) : string :=
  match s with
  | EmptyString => EmptyString
  | String c s' => String (lower_char c) (lower s')
  end.

(** [s.startswith(p)] *)
Fixpoint startswith (s p : string) {struct p} : bool :=
  match p, s with
  | EmptyString, _ => true
  | String d p', String c s' => Ascii.eqb c d && startswith s' p'
  | String _ _, EmptyString => false
  end.

(** [s.lstrip(ch)] for a one-character [ch] *)
Fixpoint lstrip (ch : ascii) (s : string) : string :=
  match s with
  | EmptyString => EmptyString
  | String c s' => if Ascii.eqb c ch then lstrip ch s' else s
  end.

(** [s.rstrip(ch)] for a one-character [ch] *)
Fixpoint rstrip (ch : ascii) (s : string) : string :=
  match s with
  | EmptyString => EmptyString
  | String c s' =>
      match rstrip ch s' with
      | EmptyString => if Ascii.eqb c ch then EmptyString else String c EmptyString
      | r => String c r
      end
  end.

(** [ch * n] *)
Fixpoint replicate (n : nat) (ch : ascii) : string :=
  match n with
  | O => EmptyString
  | S n' => String ch (replicate n' ch)
  end.

(** The last character of a string, if any. *)
Fixpoint last (s : string) : option ascii :=
  match s with
  | EmptyString => None
  | String c EmptyString => Some c
  | String _ s' => last s'
  end.

(** The first character of a string, if any. *)
Definition first (s : string) : option ascii :=
  match s with
  | EmptyString => None
  | String c _ => Some c
  end.

(** Two characters are the same letter up to ASCII case. *)
Definition same_letter (c d : ascii) : Prop :=
  c = d
  \/ ((65 <= N_of_ascii c <= 90)%N /\ N_of_ascii d = (N_of_ascii c + 32)%N)
  \/ ((65 <= N_of_ascii d <= 90)%N /\ N_of_ascii c = (N_of_ascii d + 32)%N).

(** Equality of strings up to ASCII case. *)
Fixpoint ci_eq (s p : string) : Prop :=
  match s, p with
  | EmptyString, EmptyString => True
  | String c s', String d p' => same_letter c d /\ ci_eq s' p'
  | _, _ => False
  end.

(** [s] begins, case-insensitively, with [p]. *)
Definition ci_starts_with (s p : string) : Prop :=
  exists h t, s = h ++ t /\ ci_eq h p.

End Str.

(** ** The model router *)

(** [FactChatClient.router]: the route is the pair (path, provider). *)
Definition router (model : string) : result (string * string) :=
  let m := Str.lower model in
  if Str.startswith m "claude-" then
    Ok ("anthropic/messages", "anthropic")
  else if Str.startswith m "gpt-" then
    Ok ("openai/chat/completions", "openai")
  else
    Raise (ValueError ("Unsupported model: " ++ model)).

(** ** Python values

    The values a decoded JSON body or a keyword argument can hold.  What
    belongs to the Python runtime and not to the client is kept abstract:
    the type of floats with its zero test, and [repr] on floats and on
    strings (quoting and escaping). *)

Class PyRuntime : Type := {
  pyfloat : Type;
  (** [bool(x)] on a float: [x != 0.0] *)
  float_nonzero : pyfloat -> bool;
  (** [repr(x)] on a float *)
  float_repr : pyfloat -> string;
  (** [repr(s)] on a string *)
  str_repr : string -> string
}.

Section Values.

Context {rt : PyRuntime}.

Inductive pyval : Type :=
| PNone
| PBool (b : bool)
| PInt (z : Z)
| PFloat (f : pyfloat)
| PStr (s : string)
| PList (l : list pyval)
| PDict (d : list (string * pyval)).

Definition dict : Type := list (string * pyval).

(** [bool(v)] *)
Definition truthy (v : pyval) : bool :=
  match v with
  | PNone => false
  | PBool b => b
  | PInt z => negb (z =? 0)%Z
  | PFloat f => float_nonzero f
  | PStr s => negb (s =? "")
  | PList l => match l with [] => false | _ :: _ => true end
  | PDict d => match d with [] => false | _ :: _ => true end
  end.

(** [a or b] *)
Definition py_or (a b : pyval) : pyval := if truthy a then a else b.

(** Lookup of a key; [None] when the key is absent. *)
Fixpoint dict_get (k : string) (d : dict) : option pyval :=
  match d with
  | [] => None
  | (k', v) :: d' => if k' =? k then Some v else dict_get k d'
  end.

(** [k in d] *)
Definition dict_mem (k : string) (d : dict) : bool :=
  match dict_get k d with Some _ => true | None => false end.

(** [d.get(k, dflt)] *)
Definition get_default (k : string) (dflt : pyval) (d : dict) : pyval :=
  match dict_get k d with Some v => v | None => dflt end.

(** [d[k]] *)
Definition getitem (k : string) (d : dict) : result pyval :=
  match dict_get k d with Some v => Ok v | None => Raise KeyError end.

(** [d[k] = v]: an existing key keeps its position, a new one goes last. *)
Fixpoint dict_set (k : string) (v : pyval) (d : dict) : dict :=
  match d with
  | [] => [(k, v)]
  | (k', v') :: d' =>
      if k' =? k then (k, v) :: d' else (k', v') :: dict_set k v d'
  end.

(** [del d[k]] when present. *)
Fixpoint dict_remove (k : string) (d : dict) : dict :=
  match d with
  | [] => []
  | (k', v') :: d' =>
      if k' =? k then dict_remove k d' else (k', v') :: dict_remove k d'
  end.

(** [d.pop(k, dflt)]: the value and the dict after the call. *)
Definition dict_pop (k : string) (dflt : pyval) (d : dict) : pyval * dict :=
  (get_default k dflt d, dict_remove k d).

(** [d.update(kw)] *)
Definition dict_update (d kw : dict) : dict :=
  fold_left (fun acc kv => dict_set (fst kv) (snd kv) acc) kw d.

Definition keys (d : dict) : list string := map fst d.

(** [v[0]] *)
Definition subscript0 (v : pyval) : result pyval :=
  match v with
  | PList (x :: _) => Ok x
  | PList [] => Raise IndexError
  | PStr (String c _) => Ok (PStr (String c EmptyString))
  | PStr EmptyString => Raise IndexError
  | PDict _ => Raise KeyError
  | PNone | PBool _ | PInt _ | PFloat _ => Raise TypeError
  end.

(** [v.get(k, dflt)]: only a dict has the method. *)
Definition method_get (k : string) (dflt : pyval) (v : pyval) : result pyval :=
  match v with
  | PDict d => Ok (get_default k dflt d)
  | _ => Raise AttributeError
  end.

(** [sep.join(parts)] *)
Fixpoint join (sep : string) (parts : list string) : string :=
  match parts with
  | [] => ""
  | [p] => p
  | p :: ps => p ++ sep ++ join sep ps
  end.

(** [repr(v)] *)
Fixpoint py_repr (v : pyval) : string :=
  match v with
  | PNone => "None"
  | PBool true => "True"
  | PBool false => "False"
  | PInt z => NilZero.string_of_int (Z.to_int z)
  | PFloat f => float_repr f
  | PStr s => str_repr s
  | PList l => "[" ++ join ", " (map py_repr l) ++ "]"
  | PDict d =>
      "{" ++ join ", " (map (fun kv => str_repr (fst kv) ++ ": " ++ py_repr (snd kv)) d) ++ "}"
  end.

(** [str(v)] *)
Definition py_str (v : pyval) : string :=
  match v with
  | PStr s => s
  | _ => py_repr v
  end.

(** ** The payload builder *)

(** The single user-role message both providers take. *)
Definition user_messages (user_text : string) : pyval :=
  PList [PDict [("role", PStr "user"); ("content", PStr user_text)]].

(** [FactChatClient.build_payload]; [kwargs] is the dict of the extra
    keyword arguments of the call. *)
Definition build_payload (model user_text : string) (kwargs : dict) : result dict :=
  bind (router model) (fun route =>
    let provider := snd route in
    if provider =? "anthropic" then
      let popped := dict_pop "max_tokens" (PInt 256) kwargs in
      let payload :=
        [("model", PStr model);
         ("max_tokens", fst popped);
         ("messages", user_messages user_text)] in
      Ok (dict_update payload (snd popped))
    else if provider =? "openai" then
      let payload :=
        [("model", PStr model);
         ("messages", user_messages user_text)] in
      Ok (dict_update payload kwargs)
    else
      Raise (ValueError ("Unsupported provider: " ++ provider))).

(** ** The response normaliser *)

(** The dataclass [LLMResponse]; its fields are not checked against their
    annotations, so each holds whatever value the parse put there. *)
Record LLMResponse : Type := {
  text : pyval;
  model : pyval;
  usage : pyval;
  finish_reason : pyval;
  raw : pyval
}.

(** [FactChatClient._parse_result] *)
Definition _parse_result (provider : string) (data : pyval) : result LLMResponse :=
  match data with
  | PDict d =>
      if dict_mem "choices" d && truthy (get_default "choices" PNone d) then
        bind (getitem "choices" d) (fun choices =>
        bind (subscript0 choices) (fun choice =>
        bind (method_get "message" (PDict []) choice) (fun m =>
        let msg := py_or m (PDict []) in
        bind (method_get "content" (PStr "") msg) (fun c =>
        let text := py_or c (PStr "") in
        bind (getitem "choices" d) (fun choices' =>
        bind (subscript0 choices') (fun choice' =>
        bind (method_get "finish_reason" PNone choice') (fun finish =>
        let usage := py_or (get_default "usage" (PDict []) d) (PDict []) in
        let model := py_or (get_default "model" (PStr "") d) (PStr "") in
        Ok {| text := text; model := model; usage := usage;
              finish_reason := finish; raw := data |})))))))
      else
        Ok {| text := PStr (py_str data);
              model := get_default "model" (PStr "") d;
              usage := py_or (get_default "usage" (PDict []) d) (PDict []);
              finish_reason := PNone;
              raw := data |}
  | PList _ | PStr _ =>
      (* the membership test succeeds, the first [data.get] does not *)
      Raise AttributeError
  | PNone | PBool _ | PInt _ | PFloat _ =>
      (* [in] on a value that is not a container *)
      Raise TypeError
  end.

(** ** Shapes the properties speak about *)

(** The keyword arguments a Python call can bind to [**kwargs] of
    [build_payload]: distinct names, none of them a named parameter. *)
Definition kwargs_ok (kwargs : dict) : Prop :=
  NoDup (keys kwargs)
  /\ ~ In "self" (keys kwargs)
  /\ ~ In "model" (keys kwargs)
  /\ ~ In "user_text" (keys kwargs).

(** A field that is absent, a mapping, or an empty value such as null. *)
Definition mapping_or_empty (o : option pyval) : Prop :=
  match o with
  | None => True
  | Some (PDict _) => True
  | Some v => truthy v = false
  end.

(** The key is absent or holds an empty value (null, an empty list, ...). *)
Definition absent_or_empty (o : option pyval) : Prop :=
  match o with
  | None => True
  | Some v => truthy v = false
  end.

(** The nested message of a choice, as a mapping: empty when the choice
    has no message or an empty one. *)
Definition message_of (choice : dict) : dict :=
  match dict_get "message" choice with
  | Some (PDict md) => md
  | _ => []
  end.

(** The sample OpenAI-style body
    [{"choices":[{"message":{"content":"pong"},"finish_reason":"stop"}],
      "usage":{"total_tokens":5},"model":"gpt-5-mini"}]. *)
Definition pong_body : pyval :=
  PDict
    [("choices",
      PList [PDict [("message", PDict [("content", PStr "pong")]);
                    ("finish_reason", PStr "stop")]]);
     ("usage", PDict [("total_tokens", PInt 5)]);
     ("model", PStr "gpt-5-mini")].

End Values.

(** ** The client facade

    The constructor reads the process environment and [call] performs one
    HTTP POST.  Both live in a state-and-exception monad over a [World]
    that holds the environment, the remote end and the log of the requests
    posted so far. *)

Definition DEFAULT_BASE : string := "https://factchat-cloud.mindlogic.ai/v1/api".

Section Facade.

Context {rt : PyRuntime}.

(** The arguments of one [requests.post]. *)
Record Request : Type := {
  url : string;
  headers : list (string * string);
  json : dict;
  req_timeout : Z
}.

(** What the remote end does with a request: [requests.post] raises, or
    returns a response with a status code and a body ([None] when the body
    does not decode as JSON). *)
Inductive Reply : Type :=
| NoReply (e : exn)
| Answer (status : Z) (body : option pyval).

Record Response : Type := {
  status_code : Z;
  decoded : option pyval
}.

Record World : Type := {
  environ : list (string * string);
  transport : list Request -> Request -> Reply;
  posted : list Request
}.

Definition M (A : Type) : Type := World -> result A * World.

Definition ret {A : Type} (a : A) : M A := fun w => (Ok a, w).

Definition raise {A : Type} (e : exn) : M A := fun w => (Raise e, w).

Definition lift {A : Type} (r : result A) : M A := fun w => (r, w).

Definition mbind {A B : Type} (m : M A) (k : A -> M B) : M B :=
  fun w =>
    match m w with
    | (Ok a, w') => k a w'
    | (Raise e, w') => (Raise e, w')
    end.

(** The value of an environment variable, if it is set. *)
Definition lookup_env (k : string) (w : World) : option string :=
  option_map snd (find (fun kv => fst kv =? k) (environ w)).

(** [os.environ.get(k)] *)
Definition environ_get (k : string) : M (option string) :=
  fun w => (Ok (lookup_env k w), w).

(** [requests.post(url, headers=..., json=..., timeout=...)] *)
Definition requests_post (rq : Request) : M Response :=
  fun w =>
    let w' := {| environ := environ w;
                 transport := transport w;
                 posted := posted w ++ [rq] |} in
    match transport w (posted w) rq with
    | NoReply e => (Raise e, w')
    | Answer st body => (Ok {| status_code := st; decoded := body |}, w')
    end.

(** [response.raise_for_status()] *)
Definition raise_for_status (r : Response) : result unit :=
  if ((400 <=? status_code r) && (status_code r <? 600))%Z
  then Raise (HTTPError (status_code r))
  else Ok tt.

(** [response.json()] *)
Definition response_json (r : Response) : result pyval :=
  match decoded r with
  | Some v => Ok v
  | None => Raise JSONDecodeError
  end.

(** [a or b] on optional strings: [None] and the empty string are false. *)
Definition or_str (a b : option string) : option string :=
  match a with
  | Some (String _ _) => a
  | Some EmptyString | None => b
  end.

(** [a or m] where the right operand is a computation: it is run only when
    [a] is false. *)
Definition or_else (a : option string) (m : M (option string)) : M (option string) :=
  match a with
  | Some (String _ _) => ret a
  | Some EmptyString | None => m
  end.

Record FactChatClient : Type := {
  api_key : option string;
  base_url : string;
  timeout : Z
}.

(** [FactChatClient.__init__]; an omitted [timeout] is 60. *)
Definition __init__ (api_key base_url : option string) (timeout : option Z)
  : M FactChatClient :=
  mbind (or_else api_key (environ_get "FACTCHAT_API_KEY")) (fun key =>
  match key with
  | None | Some EmptyString => raise (RuntimeError "FACTCHAT_API_KEY missing")
  | Some (String _ _) =>
      mbind (or_else base_url (environ_get "FACTCHAT_BASE_URL")) (fun given =>
      let base :=
        match or_str given (Some DEFAULT_BASE) with
        | Some b => b
        | None => EmptyString
        end in
      ret {| api_key := key;
             base_url := Str.rstrip "/" base;
             timeout := match timeout with Some t => t | None => 60%Z end |})
  end).

(** [FactChatClient._headers] *)
Definition _headers (self : FactChatClient) : list (string * string) :=
  [("Authorization",
    "Bearer " ++ match api_key self with Some k => k | None => "None" end);
   ("Content-Type", "application/json")].

(** The address [call] posts to: [f"{self.base_url}/{path.lstrip('/')}"]. *)
Definition target_url (self : FactChatClient) (path : string) : string :=
  base_url self ++ "/" ++ Str.lstrip "/" path.

(** [FactChatClient.call] *)
Definition call (self : FactChatClient) (model user_text : string) (kwargs : dict)
  : M LLMResponse :=
  mbind (lift (router model)) (fun route =>
  let path := fst route in
  let provider := snd route in
  let url := target_url self path in
  mbind (lift (build_payload model user_text kwargs)) (fun payload =>
  mbind (requests_post {| url := url; headers := _headers self;
                          json := payload; req_timeout := timeout self |})
        (fun response =>
  mbind (lift (raise_for_status response)) (fun _ =>
  mbind (lift (response_json response)) (fun data =>
  lift (_parse_result provider data)))))).

(** The base address the configuration designates: the constructor
    argument, else the environment variable, else the default; an empty
    string counts as not given. *)
Definition configured_base (arg : option string) (w : World) : string :=
  match arg with
  | Some (String c b) => String c b
  | _ =>
      match lookup_env "FACTCHAT_BASE_URL" w with
      | Some (String c b) => String c b
      | _ => DEFAULT_BASE
      end
  end.

End Facade.

(** ** A concrete runtime for examples

    JSON bodies without non-integral numbers, and [repr] on strings as
    Python prints ASCII text: single quotes unless the string holds a single
    quote and no double quote, backslash escapes for the quote, the
    backslash, tab, newline and carriage return, hexadecimal escapes for the
    other control characters.  Bytes above 127 are left as they are. *)

Module Ascii7.

Definition squote : ascii := "039"%char.
Definition dquote : ascii := "034"%char.
Definition backslash : ascii := "092"%char.

Fixpoint contains (ch : ascii) (s : string) : bool :=
  match s with
  | EmptyString => false
  | String c s' => Ascii.eqb c ch || contains ch s'
  end.

Definition hex_digit (n : N) : ascii :=
  ascii_of_N (if (n <? 10)%N then 48 + n else 87 + n).

Definition escape (q c : ascii) : string :=
  let n := N_of_ascii c in
  if Ascii.eqb c q || Ascii.eqb c backslash then String backslash (String c "")
  else if (n =? 9)%N then String backslash "t"
  else if (n =? 10)%N then String backslash "n"
  else if (n =? 13)%N then String backslash "r"
  else if (n <? 32)%N || (n =? 127)%N then
    String backslash
      (String "x" (String (hex_digit (n / 16)) (String (hex_digit (n mod 16)) "")))
  else String c "".

Fixpoint escape_all (q : ascii) (s : string) : string :=
  match s with
  | EmptyString => EmptyString
  | String c s' => escape q c ++ escape_all q s'
  end.

Definition repr (s : string) : string :=
  let q := if contains squote s && negb (contains dquote s) then dquote else squote in
  String q (escape_all q s ++ String q "").

Definition runtime : PyRuntime := {|
  pyfloat := Empty_set;
  float_nonzero := fun f => match f with end;
  float_repr := fun f => match f with end;
  str_repr := repr
|}.

End Ascii7.

(** ** Sample worlds *)

Module Sample.

(** A remote end that answers every request with the sample body. *)
Definition echo_pong : list (@Request Ascii7.runtime) -> @Request Ascii7.runtime -> @Reply Ascii7.runtime :=
  fun _ _ => Answer 200 (Some pong_body).

(** No environment variable is set. *)
Definition bare : @World Ascii7.runtime :=
  {| environ := []; transport := echo_pong; posted := [] |}.

(** Credential and base address come from the environment. *)
Definition configured : @World Ascii7.runtime :=
  {| environ := [("FACTCHAT_API_KEY", "sk-env");
                 ("FACTCHAT_BASE_URL", "https://example.test/api//")];
     transport := echo_pong;
     posted := [] |}.

(** The credential variable is set, to the empty string. *)
Definition blank : @World Ascii7.runtime :=
  {| environ := [("FACTCHAT_API_KEY", "")];
     transport := echo_pong;
     posted := [] |}.

End Sample.

(** ** Results without the raw body *)

Definition result_map {A B : Type} (f : A -> B) (r : result A) : result B :=
  match r with
  | Ok a => Ok (f a)
  | Raise e => Raise e
  end.

Section Parsed.

Context {rt : PyRuntime}.

(** The four fields the normaliser extracts, in the order text, model,
    usage, finish reason. *)
Definition parsed_fields (r : LLMResponse) : pyval * pyval * pyval * pyval :=
  (text r, model r, usage r, finish_reason r).

(** A value that is not a container: null, a boolean or a number. *)
Definition scalar (v : pyval) : Prop :=
  match v with
  | PNone | PBool _ | PInt _ | PFloat _ => True
  | PStr _ | PList _ | PDict _ => False
  end.

End Parsed.

(** ** The request of a call *)

Section Posting.

Context {rt : PyRuntime}.

(** The request [call] hands to [requests.post] for a routed path and a
    built payload. *)
Definition request_of (self : FactChatClient) (path : string) (payload : dict) : Request :=
  {| url := target_url self path;
     headers := _headers self;
     json := payload;
     req_timeout := timeout self |}.

(** The world after one more request was posted. *)
Definition logged (w : World) (rq : Request) : World :=
  {| environ := environ w;
     transport := transport w;
     posted := posted w ++ [rq] |}.

(** A status code [raise_for_status] raises on. *)
Definition error_status (st : Z) : Prop := (400 <= st < 600)%Z.

End Posting.

(** ** The test script

    [test_factchat.py] posts one image request on its own, without the
    client, and prints what came back. *)


Section Scripts.

Context {rt : PyRuntime}.

(** What [requests.post] gives the test script: an exception, or a response
    with its status code and its text. *)
Inductive RawReply : Type :=
| Refused (e : exn)
| Served (status : Z) (body_text : string).

(** What the test script runs in: its command line, the environment and
    the remote end. *)
Record Shell : Type := {
  sys_argv : list string;
  os_environ : list (string * string);
  remote : Request -> RawReply
}.

(** What a run of the test script leaves behind: how it ended, the requests
    it posted, and what it wrote, one entry for each call of [print] (the
    text of a call may itself hold line breaks). *)
Record Run : Type := {
  outcome : result unit;
  requests : list Request;
  stdout : list string
}.

(** [os.environ.get(k)] in a shell. *)
Definition getenv (k : string) (sh : Shell) : option string :=
  option_map snd (find (fun kv => fst kv =? k) (os_environ sh)).

(** [s[:n]], the first [n] elements; the first [n] characters when the
    text is [ascii_text]. *)
Fixpoint take (n : nat) (s : string) : string :=
  match n, s with
  | S n', String c s' => String c (take n' s')
  | _, _ => EmptyString
  end.

(** [str(n)] on an integer. *)
Definition int_str (z : Z) : string := NilZero.string_of_int (Z.to_int z).

(** [test_factchat.py] *)
Definition test_factchat (sh : Shell) : Run :=
  let default := "gpt-5-mini" in
  let model :=
    match sys_argv sh with
    | _ :: m :: _ => m
    | _ => default
    end in
  let base :=
    Str.rstrip "/"
      (match getenv "FACTCHAT_BASE_URL" sh with
       | Some b => b
       | None => "https://factchat-cloud.mindlogic.ai/v1/api"
       end) in
  match getenv "FACTCHAT_API_KEY" sh with
  | None => {| outcome := Raise KeyError; requests := []; stdout := [] |}
  | Some key =>
      let path := "openai/images/generate" in
      let url := base ++ "/" ++ path in
      let headers :=
        [("Authorization", "Bearer " ++ key);
         ("Content-Type", "application/json")] in
      let payload :=
        [("model", PStr model);
         ("prompt", PStr "ping test image");
         ("size", PStr "1024x1024")] in
      let rq := {| url := url; headers := headers;
                   json := payload; req_timeout := 180 |} in
      match remote sh rq with
      | Refused e => {| outcome := Raise e; requests := [rq]; stdout := [] |}
      | Served st txt =>
          {| outcome := Ok tt;
             requests := [rq];
             stdout :=
               [int_str st;
                take 500 txt;
                "Base: " ++ base;
                "Model: " ++ py_str (PStr model);
                "Path: " ++ path;
                "Payload: " ++ py_str (PDict payload)] |}
      end
  end.

End Scripts.

(** ** Sample runs of the scripts *)

Module SampleScripts.

(** A key, an explicit model and a base address with a trailing slash; the
    remote end answers 401 with a short text. *)
Definition denied : @Shell Ascii7.runtime :=
  {| sys_argv := ["test_factchat.py"; "gpt-image-1"];
     os_environ := [("FACTCHAT_API_KEY", "sk-env");
                    ("FACTCHAT_BASE_URL", "https://example.test/api/")];
     remote := fun _ => Served 401 "unauthorized" |}.

(** No key in the environment. *)
Definition keyless : @Shell Ascii7.runtime :=
  {| sys_argv := ["test_factchat.py"];
     os_environ := [];
     remote := fun _ => Served 200 "ok" |}.

(** A world whose remote end refuses every request with status 503. *)
Definition unavailable : @World Ascii7.runtime :=
  {| environ := [("FACTCHAT_API_KEY", "sk-env")];
     transport := fun _ _ => Answer 503 (Some pong_body);
     posted := [] |}.

(** A world whose connection fails. *)
Definition offline : @World Ascii7.runtime :=
  {| environ := [("FACTCHAT_API_KEY", "sk-env")];
     transport := fun _ _ => NoReply RequestException;
     posted := [] |}.

(** A world whose remote end answers 200 with a body that is not JSON. *)
Definition garbled : @World Ascii7.runtime :=
  {| environ := [("FACTCHAT_API_KEY", "sk-env")];
     transport := fun _ _ => Answer 200 None;
     posted := [] |}.

(** A world with a key in the environment that answers with the sample
    body. *)
Definition keyed : @World Ascii7.runtime :=
  {| environ := [("FACTCHAT_API_KEY", "sk-env")];
     transport := Sample.echo_pong;
     posted := [] |}.

End SampleScripts.

(** ** Facts about strings *)

Section StrFacts.

Lemma N_of_ascii_lt (c : ascii) : (N_of_ascii c < 256)%N.
Proof. apply N_ascii_bounded. Qed.

Lemma lower_char_same_letter (c d : ascii) :
  Str.same_letter c d -> Str.lower_char c = Str.lower_char d.
Proof.
  unfold Str.same_letter, Str.lower_char, Str.is_upper.
  intros [-> | [[Hc Hd] | [Hd Hc]]]; [reflexivity | |].
  - rewrite Hd.
    replace ((65 <=? N_of_ascii c)%N) with true by (symmetry; apply N.leb_le; lia).
    replace ((N_of_ascii c <=? 90)%N) with true by (symmetry; apply N.leb_le; lia).
    replace ((N_of_ascii c + 32 <=? 90)%N) with false by (symmetry; apply N.leb_gt; lia).
    rewrite andb_false_r. simpl.
    rewrite <- Hd. apply ascii_N_embedding.
  - rewrite Hc.
    replace ((65 <=? N_of_ascii d)%N) with true by (symmetry; apply N.leb_le; lia).
    replace ((N_of_ascii d <=? 90)%N) with true by (symmetry; apply N.leb_le; lia).
    replace ((N_of_ascii d + 32 <=? 90)%N) with false by (symmetry; apply N.leb_gt; lia).
    rewrite andb_false_r. simpl.
    rewrite <- Hc. symmetry. apply ascii_N_embedding.
Qed.

Lemma same_letter_lower_char (c d : ascii) :
  Str.lower_char c = Str.lower_char d -> Str.same_letter c d.
Proof.
  unfold Str.same_letter, Str.lower_char, Str.is_upper.
  pose proof (N_of_ascii_lt c) as Bc. pose proof (N_of_ascii_lt d) as Bd.
  destruct ((65 <=? N_of_ascii c) && (N_of_ascii c <=? 90))%N eqn:Uc;
    destruct ((65 <=? N_of_ascii d) && (N_of_ascii d <=? 90))%N eqn:Ud; intros E.
  - apply andb_true_iff in Uc as [Uc1 Uc2]. apply andb_true_iff in Ud as [Ud1 Ud2].
    apply N.leb_le in Uc1, Uc2, Ud1, Ud2.
    apply (f_equal N_of_ascii) in E.
    rewrite !N_ascii_embedding in E by lia.
    left. rewrite <- (ascii_N_embedding c), <- (ascii_N_embedding d).
    f_equal. lia.
  - apply andb_true_iff in Uc as [Uc1 Uc2]. apply N.leb_le in Uc1, Uc2.
    apply (f_equal N_of_ascii) in E. rewrite N_ascii_embedding in E by lia.
    right; left. split; [lia | congruence].
  - apply andb_true_iff in Ud as [Ud1 Ud2]. apply N.leb_le in Ud1, Ud2.
    apply (f_equal N_of_ascii) in E. rewrite N_ascii_embedding in E by lia.
    right; right. split; [lia | congruence].
  - left; assumption.
Qed.

Lemma lower_ci_eq (s p : string) : Str.ci_eq s p -> Str.lower s = Str.lower p.
Proof.
  revert p; induction s as [|c s IH]; intros [|d p]; simpl; try tauto.
  intros [Hcd Hsp]. f_equal; [apply lower_char_same_letter; exact Hcd | apply IH; exact Hsp].
Qed.

Lemma ci_eq_lower (s p : string) : Str.lower s = Str.lower p -> Str.ci_eq s p.
Proof.
  revert p; induction s as [|c s IH]; intros [|d p]; simpl; try discriminate; auto.
  intros E. injection E as Ec Es. split; [apply same_letter_lower_char; exact Ec | apply IH; exact Es].
Qed.

Lemma lower_app (s t : string) : Str.lower (s ++ t) = Str.lower s ++ Str.lower t.
Proof. induction s as [|c s IH]; simpl; [reflexivity | now rewrite IH]. Qed.

Lemma startswith_app (p t : string) : Str.startswith (p ++ t) p = true.
Proof.
  induction p as [|c p IH]; simpl; [reflexivity|].
  now rewrite Ascii.eqb_refl, IH.
Qed.

Lemma startswith_split (s p : string) :
  Str.startswith s p = true -> exists t, s = p ++ t.
Proof.
  revert s; induction p as [|d p IH]; intros s; simpl.
  - intros _. now exists s.
  - destruct s as [|c s]; [discriminate|].
    intros H. apply andb_true_iff in H as [Hc Hs].
    apply Ascii.eqb_eq in Hc. subst d.
    destruct (IH _ Hs) as [t ->]. now exists t.
Qed.

(** A split of [lower s] lifts to a split of [s]. *)
Lemma lower_split (s a b : string) :
  Str.lower s = a ++ b ->
  exists h t, s = h ++ t /\ Str.lower h = a /\ Str.lower t = b.
Proof.
  revert s; induction a as [|d a IH]; intros s; simpl.
  - intros E. exists EmptyString, s. auto.
  - destruct s as [|c s]; simpl; [discriminate|].
    intros E. injection E as Ec Es.
    destruct (IH _ Es) as (h & t & -> & Hh & Ht).
    exists (String c h), t. simpl. repeat split; [now rewrite Ec, Hh | exact Ht].
Qed.

(** The router's test is exactly the case-insensitive prefix test, for a
    prefix that is already in lower case. *)
Lemma startswith_lower_iff (s p : string) :
  Str.lower p = p ->
  (Str.startswith (Str.lower s) p = true <-> Str.ci_starts_with s p).
Proof.
  intros Hp; split.
  - intros H. apply startswith_split in H as [t Ht].
    apply lower_split in Ht as (h & t' & -> & Hh & _).
    exists h, t'. split; [reflexivity|]. apply ci_eq_lower. now rewrite Hp.
  - intros (h & t & -> & Hci). apply lower_ci_eq in Hci.
    rewrite lower_app, Hci, Hp. apply startswith_app.
Qed.

End StrFacts.

Section RouterFacts.

Variable model : string.

Lemma router_claude :
  Str.ci_starts_with model "claude-" ->
  router model = Ok ("anthropic/messages", "anthropic").
Proof.
  intros H. unfold router.
  apply (proj2 (@startswith_lower_iff model "claude-" eq_refl)) in H.
  now rewrite H.
Qed.

Lemma claude_not_gpt :
  Str.startswith (Str.lower model) "gpt-" = true ->
  Str.startswith (Str.lower model) "claude-" = false.
Proof.
  intros Eg. destruct (Str.startswith (Str.lower model) "claude-") eqn:Ec; [|reflexivity].
  apply startswith_split in Ec as [t1 E1]. apply startswith_split in Eg as [t2 E2].
  rewrite E1 in E2. discriminate E2.
Qed.

Lemma router_gpt :
  Str.ci_starts_with model "gpt-" ->
  router model = Ok ("openai/chat/completions", "openai").
Proof.
  intros H. unfold router.
  apply (proj2 (@startswith_lower_iff model "gpt-" eq_refl)) in H.
  now rewrite (claude_not_gpt H), H.
Qed.

Lemma router_other :
  ~ Str.ci_starts_with model "claude-" ->
  ~ Str.ci_starts_with model "gpt-" ->
  router model = Raise (ValueError ("Unsupported model: " ++ model)).
Proof.
  intros Hc Hg. unfold router.
  destruct (Str.startswith (Str.lower model) "claude-") eqn:Ec.
  { exfalso. apply Hc. now apply (@startswith_lower_iff model "claude-" eq_refl). }
  destruct (Str.startswith (Str.lower model) "gpt-") eqn:Eg.
  { exfalso. apply Hg. now apply (@startswith_lower_iff model "gpt-" eq_refl). }
  reflexivity.
Qed.

(** The router only ever produces the two routes of its table. *)
Lemma router_range (path provider : string) :
  router model = Ok (path, provider) ->
  (path = "anthropic/messages" /\ provider = "anthropic")
  \/ (path = "openai/chat/completions" /\ provider = "openai").
Proof.
  unfold router.
  destruct (Str.startswith (Str.lower model) "claude-");
    [|destruct (Str.startswith (Str.lower model) "gpt-")];
    intros E; inversion E; auto.
Qed.

End RouterFacts.

(** C1. For every model name: a name beginning, in any case, with
    [claude-] is routed to [anthropic/messages] with the anthropic provider;
    one beginning with [gpt-] to [openai/chat/completions] with the openai
    provider; any other name makes the router raise the unsupported-model
    error, whose message carries the model name as it was given. *)
Theorem router_by_prefix (model : string) :
  (Str.ci_starts_with model "claude-" ->
     router model = Ok ("anthropic/messages", "anthropic")) /\
  (Str.ci_starts_with model "gpt-" ->
     router model = Ok ("openai/chat/completions", "openai")) /\
  (~ Str.ci_starts_with model "claude-" -> ~ Str.ci_starts_with model "gpt-" ->
     router model = Raise (ValueError ("Unsupported model: " ++ model))).
Proof.
  split; [apply router_claude | split; [apply router_gpt | apply router_other]].
Qed.

(** ** Facts about dicts *)

Section DictFacts.

Context {rt : PyRuntime}.

Lemma dict_get_absent (k : string) (d : dict) :
  dict_get k d = None <-> ~ In k (keys d).
Proof.
  induction d as [|[k' v'] d IH]; simpl.
  - tauto.
  - destruct (String.eqb_spec k' k) as [->|Hne].
    + split; [discriminate | intros H; exfalso; apply H; now left].
    + rewrite IH. split; [intros H [E|I]; [congruence | tauto] | tauto].
Qed.

Lemma dict_get_present (k : string) (d : dict) :
  dict_get k d <> None <-> In k (keys d).
Proof.
  destruct (in_dec string_dec k (keys d)) as [I|N].
  - split; [auto|]. intros _ E. now apply dict_get_absent in E.
  - split; [|tauto]. intros H. exfalso. apply H. now apply dict_get_absent.
Qed.

Lemma dict_get_set_same (k : string) (v : pyval) (d : dict) :
  dict_get k (dict_set k v d) = Some v.
Proof.
  induction d as [|[k' v'] d IH]; simpl.
  - now rewrite String.eqb_refl.
  - destruct (String.eqb_spec k' k) as [->|Hne]; simpl.
    + now rewrite String.eqb_refl.
    + apply String.eqb_neq in Hne. now rewrite Hne.
Qed.

Lemma dict_get_set_other (k k0 : string) (v : pyval) (d : dict) :
  k0 <> k -> dict_get k (dict_set k0 v d) = dict_get k d.
Proof.
  intros Hne. apply String.eqb_neq in Hne.
  induction d as [|[k' v'] d IH]; simpl.
  - now rewrite Hne.
  - destruct (String.eqb_spec k' k0) as [->|Hne']; simpl.
    + now rewrite Hne.
    + now rewrite IH.
Qed.

Lemma keys_dict_set (k : string) (v : pyval) (d : dict) :
  keys (dict_set k v d) = if dict_mem k d then keys d else (keys d ++ [k])%list.
Proof.
  unfold dict_mem.
  induction d as [|[k' v'] d IH]; simpl; [reflexivity|].
  destruct (String.eqb_spec k' k) as [->|Hne]; simpl; [reflexivity|].
  rewrite IH. now destruct (dict_get k d).
Qed.

Lemma NoDup_dict_set (k : string) (v : pyval) (d : dict) :
  NoDup (keys d) -> NoDup (keys (dict_set k v d)).
Proof.
  intros H. rewrite keys_dict_set. unfold dict_mem.
  destruct (dict_get k d) eqn:E; [exact H|].
  apply dict_get_absent in E.
  apply NoDup_app; [exact H | repeat constructor; intros [] | ].
  intros x I [<- | []]. tauto.
Qed.

Lemma NoDup_dict_update (d kw : dict) :
  NoDup (keys d) -> NoDup (keys (dict_update d kw)).
Proof.
  unfold dict_update. revert d.
  induction kw as [|[k v] kw IH]; intros d H; simpl; [exact H|].
  apply IH, NoDup_dict_set, H.
Qed.

(** [update] is overwrite-by-key: the argument's value where it has the
    key, the receiver's value everywhere else. *)
Lemma dict_get_update (k : string) (d kw : dict) :
  NoDup (keys kw) ->
  dict_get k (dict_update d kw) =
    match dict_get k kw with
    | Some v => Some v
    | None => dict_get k d
    end.
Proof.
  unfold dict_update. revert d.
  induction kw as [|[k0 v0] kw IH]; intros d H; simpl; [reflexivity|].
  inversion H as [|? ? Hnotin Hnd]; subst.
  rewrite (IH _ Hnd).
  destruct (String.eqb_spec k0 k) as [->|Hne].
  - apply dict_get_absent in Hnotin. rewrite Hnotin. apply dict_get_set_same.
  - now rewrite dict_get_set_other.
Qed.

Lemma dict_get_remove (k k0 : string) (d : dict) :
  dict_get k (dict_remove k0 d) = if k0 =? k then None else dict_get k d.
Proof.
  induction d as [|[k' v'] d IH]; simpl.
  - now destruct (k0 =? k).
  - destruct (String.eqb_spec k' k0) as [->|Hne]; simpl.
    + rewrite IH. now destruct (k0 =? k).
    + rewrite IH.
      destruct (String.eqb_spec k0 k) as [->|Hne2].
      * apply String.eqb_neq in Hne. now rewrite Hne.
      * reflexivity.
Qed.

Lemma keys_dict_remove (k0 x : string) (d : dict) :
  In x (keys (dict_remove k0 d)) -> In x (keys d).
Proof.
  induction d as [|[k' v'] d IH]; simpl; [tauto|].
  destruct (k' =? k0); simpl; tauto.
Qed.

Lemma NoDup_dict_remove (k0 : string) (d : dict) :
  NoDup (keys d) -> NoDup (keys (dict_remove k0 d)).
Proof.
  induction d as [|[k' v'] d IH]; simpl; intros H; [constructor|].
  inversion H as [|? ? Hnotin Hnd]; subst.
  destruct (k' =? k0); simpl; [now apply IH|].
  constructor; [|now apply IH].
  intros I. apply Hnotin. eapply keys_dict_remove, I.
Qed.

End DictFacts.

(** ** The payload builder *)

Section BuilderFacts.

Context {rt : PyRuntime}.

Variables (model user_text : string) (kwargs : dict).
Hypothesis Hkw : kwargs_ok kwargs.

Lemma build_payload_anthropic_eq :
  Str.ci_starts_with model "claude-" ->
  build_payload model user_text kwargs =
    Ok (dict_update
          [("model", PStr model);
           ("max_tokens", get_default "max_tokens" (PInt 256) kwargs);
           ("messages", user_messages user_text)]
          (dict_remove "max_tokens" kwargs)).
Proof.
  intros H. unfold build_payload. now rewrite (router_claude H).
Qed.

Lemma build_payload_openai_eq :
  Str.ci_starts_with model "gpt-" ->
  build_payload model user_text kwargs =
    Ok (dict_update
          [("model", PStr model); ("messages", user_messages user_text)]
          kwargs).
Proof.
  intros H. unfold build_payload. now rewrite (router_gpt H).
Qed.

Lemma kwargs_no_model : dict_get "model" kwargs = None.
Proof. apply dict_get_absent. apply Hkw. Qed.

(** Every key of the Anthropic-style body, looked up. *)
Lemma anthropic_lookup (k : string) :
  dict_get k
    (dict_update
       [("model", PStr model);
        ("max_tokens", get_default "max_tokens" (PInt 256) kwargs);
        ("messages", user_messages user_text)]
       (dict_remove "max_tokens" kwargs)) =
    match dict_get k kwargs with
    | Some v => Some v
    | None =>
        if k =? "model" then Some (PStr model)
        else if k =? "max_tokens" then Some (PInt 256)
        else if k =? "messages" then Some (user_messages user_text)
        else None
    end.
Proof.
  destruct Hkw as (Hnd & _).
  rewrite dict_get_update by now apply NoDup_dict_remove.
  rewrite dict_get_remove. unfold get_default. cbn [dict_get].
  rewrite (String.eqb_sym "model" k), (String.eqb_sym "max_tokens" k),
    (String.eqb_sym "messages" k).
  destruct (String.eqb_spec k "max_tokens") as [->|Hne].
  - now destruct (dict_get "max_tokens" kwargs).
  - destruct (dict_get k kwargs); [reflexivity|].
    now destruct (k =? "model").
Qed.

(** Every key of the OpenAI-style body, looked up. *)
Lemma openai_lookup (k : string) :
  dict_get k
    (dict_update
       [("model", PStr model); ("messages", user_messages user_text)]
       kwargs) =
    match dict_get k kwargs with
    | Some v => Some v
    | None =>
        if k =? "model" then Some (PStr model)
        else if k =? "messages" then Some (user_messages user_text)
        else None
    end.
Proof.
  destruct Hkw as (Hnd & _).
  rewrite dict_get_update by exact Hnd. cbn [dict_get].
  now rewrite (String.eqb_sym "model" k), (String.eqb_sym "messages" k).
Qed.

End BuilderFacts.

(** C3. For a model name beginning with [claude-], any prompt and any
    extra keyword arguments, the builder returns a body that holds the model
    name, [max_tokens] equal to 256 when the caller gave none, and
    [messages] equal to the one-element list with the user-role message
    around the prompt when the caller gave none; every field of the caller
    is in the body with the caller's value, whichever key it has (so a
    caller's [max_tokens] or [messages] replaces the default), and the body
    has no other key. *)
Theorem build_payload_anthropic {rt : PyRuntime}
  (model user_text : string) (kwargs : dict) :
  Str.ci_starts_with model "claude-" ->
  kwargs_ok kwargs ->
  exists payload,
    build_payload model user_text kwargs = Ok payload
    /\ dict_get "model" payload = Some (PStr model)
    /\ (dict_get "max_tokens" kwargs = None ->
        dict_get "max_tokens" payload = Some (PInt 256))
    /\ (dict_get "messages" kwargs = None ->
        dict_get "messages" payload =
          Some (PList [PDict [("role", PStr "user"); ("content", PStr user_text)]]))
    /\ (forall k v, dict_get k kwargs = Some v -> dict_get k payload = Some v)
    /\ (forall k, dict_get k kwargs = None ->
          k <> "model" -> k <> "max_tokens" -> k <> "messages" ->
          dict_get k payload = None)
    /\ NoDup (keys payload).
Proof.
  intros Hm Hkw. eexists. split; [apply build_payload_anthropic_eq; exact Hm|].
  repeat split.
  - rewrite anthropic_lookup by exact Hkw. now rewrite (kwargs_no_model Hkw).
  - intros E. rewrite anthropic_lookup by exact Hkw. now rewrite E.
  - intros E. rewrite anthropic_lookup by exact Hkw. now rewrite E.
  - intros k v E. rewrite anthropic_lookup by exact Hkw. now rewrite E.
  - intros k E N1 N2 N3. rewrite anthropic_lookup by exact Hkw. rewrite E.
    apply String.eqb_neq in N1, N2, N3. now rewrite N1, N2, N3.
  - apply NoDup_dict_update. simpl.
    repeat constructor; simpl; intuition discriminate.
Qed.

(** C8. For a model name beginning with [gpt-], any prompt and any extra
    keyword arguments, the builder returns a body that holds the model name
    and, unless the caller gave [messages], the one-element list with the
    user-role message around the prompt; every field of the caller is in the
    body with the caller's value and the body has no other key: no
    [max_tokens] is put in, the body has that key exactly when the caller
    gave it. *)
Theorem build_payload_openai {rt : PyRuntime}
  (model user_text : string) (kwargs : dict) :
  Str.ci_starts_with model "gpt-" ->
  kwargs_ok kwargs ->
  exists payload,
    build_payload model user_text kwargs = Ok payload
    /\ dict_get "model" payload = Some (PStr model)
    /\ (dict_get "messages" kwargs = None ->
        dict_get "messages" payload =
          Some (PList [PDict [("role", PStr "user"); ("content", PStr user_text)]]))
    /\ (forall k v, dict_get k kwargs = Some v -> dict_get k payload = Some v)
    /\ (forall k, dict_get k kwargs = None ->
          k <> "model" -> k <> "messages" -> dict_get k payload = None)
    /\ dict_get "max_tokens" payload = dict_get "max_tokens" kwargs
    /\ dict_mem "max_tokens" payload = dict_mem "max_tokens" kwargs.
Proof.
  intros Hm Hkw. eexists. split; [apply build_payload_openai_eq; exact Hm|].
  assert (Hmt : forall d, d = dict_update
            [("model", PStr model); ("messages", user_messages user_text)] kwargs ->
            dict_get "max_tokens" d = dict_get "max_tokens" kwargs).
  { intros d ->. rewrite openai_lookup by exact Hkw.
    now destruct (dict_get "max_tokens" kwargs). }
  repeat split.
  - rewrite openai_lookup by exact Hkw. now rewrite (kwargs_no_model Hkw).
  - intros E. rewrite openai_lookup by exact Hkw. now rewrite E.
  - intros k v E. rewrite openai_lookup by exact Hkw. now rewrite E.
  - intros k E N1 N2. rewrite openai_lookup by exact Hkw. rewrite E.
    apply String.eqb_neq in N1, N2. now rewrite N1, N2.
  - now apply Hmt.
  - unfold dict_mem. now rewrite (Hmt _ eq_refl).
Qed.

(** ** The response normaliser *)

Section NormaliserFacts.

Context {rt : PyRuntime}.

Lemma py_or_truthy (v dflt : pyval) : truthy v = true -> py_or v dflt = v.
Proof. unfold py_or. now intros ->. Qed.

Lemma py_or_falsy (v dflt : pyval) : truthy v = false -> py_or v dflt = dflt.
Proof. unfold py_or. now intros ->. Qed.

Lemma py_or_str (s : string) : py_or (PStr s) (PStr "") = PStr s.
Proof. unfold py_or. now destruct s. Qed.

Lemma py_or_dict (u : dict) : py_or (PDict u) (PDict []) = PDict u.
Proof. unfold py_or. now destruct u. Qed.

(** The message the primary path reads the content from. *)
Lemma message_or_empty (cd : dict) :
  mapping_or_empty (dict_get "message" cd) ->
  py_or (get_default "message" (PDict []) cd) (PDict []) = PDict (message_of cd).
Proof.
  unfold mapping_or_empty, message_of, get_default.
  destruct (dict_get "message" cd) as [v|]; [|reflexivity].
  destruct v; intros H; try (now apply py_or_falsy).
  apply py_or_dict.
Qed.

(** The primary path, in closed form. *)
Lemma parse_primary_eq (provider : string) (d cd : dict) (rest : list pyval) :
  dict_get "choices" d = Some (PList (PDict cd :: rest)) ->
  mapping_or_empty (dict_get "message" cd) ->
  _parse_result provider (PDict d) =
    Ok {| text := py_or (get_default "content" (PStr "") (message_of cd)) (PStr "");
          model := py_or (get_default "model" (PStr "") d) (PStr "");
          usage := py_or (get_default "usage" (PDict []) d) (PDict []);
          finish_reason := get_default "finish_reason" PNone cd;
          raw := PDict d |}.
Proof.
  intros Hc Hm. unfold _parse_result, dict_mem, getitem.
  unfold get_default at 1. rewrite Hc.
  cbn [truthy andb bind subscript0 method_get].
  rewrite (message_or_empty _ Hm).
  reflexivity.
Qed.

(** The fallback path, in closed form. *)
Lemma parse_fallback_eq (provider : string) (d : dict) :
  absent_or_empty (dict_get "choices" d) ->
  _parse_result provider (PDict d) =
    Ok {| text := PStr (py_str (PDict d));
          model := get_default "model" (PStr "") d;
          usage := py_or (get_default "usage" (PDict []) d) (PDict []);
          finish_reason := PNone;
          raw := PDict d |}.
Proof.
  unfold absent_or_empty, _parse_result, dict_mem, get_default.
  destruct (dict_get "choices" d) as [v|]; [|reflexivity].
  now intros ->.
Qed.

(** Whatever path returns, the raw field is the body that came in. *)
Lemma parse_raw (provider : string) (data : pyval) (r : LLMResponse) :
  _parse_result provider data = Ok r -> raw r = data.
Proof.
  unfold _parse_result.
  destruct data as [| | | | |l|d]; try discriminate.
  destruct (dict_mem "choices" d && truthy (get_default "choices" PNone d)).
  - repeat match goal with
      | |- bind ?x _ = Ok _ -> _ => destruct x; cbn [bind]; try discriminate
      end.
    intros E; inversion E; reflexivity.
  - intros E; inversion E; reflexivity.
Qed.

(** The normaliser returns exactly on the mappings whose [choices] is
    absent or empty, or is a list that begins with a mapping whose message
    is absent, empty or a mapping; on every other body it raises. *)
Lemma parse_returns_iff (provider : string) (data : pyval) :
  (exists r, _parse_result provider data = Ok r) <->
  (exists d,
      data = PDict d
      /\ (absent_or_empty (dict_get "choices" d)
          \/ exists cd rest,
               dict_get "choices" d = Some (PList (PDict cd :: rest))
               /\ mapping_or_empty (dict_get "message" cd))).
Proof.
  split.
  - intros [r E]. destruct data as [| | | | | |d]; try discriminate E.
    exists d. split; [reflexivity|].
    unfold _parse_result, dict_mem, getitem in E. unfold get_default at 1 in E.
    destruct (dict_get "choices" d) as [v|]; [|left; exact I].
    destruct (truthy v) eqn:T; [|left; exact T].
    right. cbn [andb bind] in E.
    destruct v as [| | | | |[|c rest]|]; try discriminate E;
      try (destruct s; discriminate E).
    destruct c as [| | | | | |cd]; try discriminate E.
    exists cd, rest. split; [reflexivity|].
    cbn [subscript0 bind method_get] in E.
    unfold mapping_or_empty. unfold get_default at 1 in E.
    destruct (dict_get "message" cd) as [m|]; [|exact I].
    unfold py_or at 1 in E.
    destruct m; try exact I; try reflexivity;
      match goal with
      | |- truthy ?x = false =>
          destruct (truthy x) eqn:Tm; [try rewrite Tm in E; discriminate E | reflexivity]
      end.
  - intros (d & -> & [Hc | (cd & rest & Hc & Hm)]).
    + eexists. apply (parse_fallback_eq provider _ Hc).
    + eexists. apply (parse_primary_eq provider _ Hc Hm).
Qed.

End NormaliserFacts.

(** C4, as amended.  For every body whose [choices] is a non-empty list
    that begins with a mapping whose message is absent, a mapping or an
    empty value such as null, the normaliser returns a result.  Its text is
    the content of that choice's message when the content is a string or
    any other non-empty value, and the empty string when the content is
    absent or an empty value (null, false, 0, an empty list or mapping) and
    when the message is absent or empty.  Its finish reason is the choice's
    [finish_reason], unset when absent.  Its usage is the top-level [usage]
    when that is a mapping or another non-empty value, and the empty mapping
    when it is absent or an empty value.  Its model is the top-level [model]
    when that is a string or another non-empty value, and the empty string
    when it is absent or an empty value.  On the sample body it yields text
    [pong], finish reason [stop], usage [{"total_tokens": 5}] and model
    [gpt-5-mini]. *)
Theorem parse_primary_path {rt : PyRuntime} :
  (forall (provider : string) (d cd : dict) (rest : list pyval),
      dict_get "choices" d = Some (PList (PDict cd :: rest)) ->
      mapping_or_empty (dict_get "message" cd) ->
      exists r,
        _parse_result provider (PDict d) = Ok r
        (* text *)
        /\ (forall md s,
              dict_get "message" cd = Some (PDict md) ->
              dict_get "content" md = Some (PStr s) -> text r = PStr s)
        /\ (forall md v,
              dict_get "message" cd = Some (PDict md) ->
              dict_get "content" md = Some v -> truthy v = true -> text r = v)
        /\ (forall md v,
              dict_get "message" cd = Some (PDict md) ->
              dict_get "content" md = Some v -> truthy v = false ->
              text r = PStr "")
        /\ (forall md,
              dict_get "message" cd = Some (PDict md) ->
              dict_get "content" md = None -> text r = PStr "")
        /\ (forall m,
              dict_get "message" cd = Some m -> truthy m = false ->
              text r = PStr "")
        /\ (dict_get "message" cd = None -> text r = PStr "")
        (* finish reason *)
        /\ (forall f, dict_get "finish_reason" cd = Some f -> finish_reason r = f)
        /\ (dict_get "finish_reason" cd = None -> finish_reason r = PNone)
        (* usage *)
        /\ (forall u, dict_get "usage" d = Some (PDict u) -> usage r = PDict u)
        /\ (forall v, dict_get "usage" d = Some v -> truthy v = true -> usage r = v)
        /\ (forall v,
              dict_get "usage" d = Some v -> truthy v = false -> usage r = PDict [])
        /\ (dict_get "usage" d = None -> usage r = PDict [])
        (* model echo *)
        /\ (forall s, dict_get "model" d = Some (PStr s) -> model r = PStr s)
        /\ (forall v, dict_get "model" d = Some v -> truthy v = true -> model r = v)
        /\ (forall v,
              dict_get "model" d = Some v -> truthy v = false -> model r = PStr "")
        /\ (dict_get "model" d = None -> model r = PStr ""))
  /\ (forall provider : string,
        exists r,
          _parse_result provider pong_body = Ok r
          /\ text r = PStr "pong"
          /\ finish_reason r = PStr "stop"
          /\ usage r = PDict [("total_tokens", PInt 5)]
          /\ model r = PStr "gpt-5-mini").
Proof.
  split.
  - intros provider d cd rest Hc Hm.
    eexists. split; [apply (parse_primary_eq provider _ Hc Hm)|].
    cbn [text model usage finish_reason]. unfold message_of, get_default.
    repeat split.
    + intros md s -> ->. apply py_or_str.
    + intros md v -> -> T. now apply py_or_truthy.
    + intros md v -> -> T. now apply py_or_falsy.
    + intros md -> ->. reflexivity.
    + intros m -> T. destruct m as [| | | | | |[|kv md]]; try reflexivity.
      discriminate T.
    + intros ->. reflexivity.
    + now intros f ->.
    + now intros ->.
    + intros u ->. apply py_or_dict.
    + intros v -> T. now apply py_or_truthy.
    + intros v -> T. now apply py_or_falsy.
    + now intros ->.
    + intros s ->. apply py_or_str.
    + intros v -> T. now apply py_or_truthy.
    + intros v -> T. now apply py_or_falsy.
    + now intros ->.
  - intros provider. eexists. split; [reflexivity|]. repeat split.
Qed.

(** C5. A body whose [choices] is not a non-empty list of choices is not
    always given the fallback result: when [choices] holds a number that is
    not zero, a non-empty string or a non-empty mapping, the normaliser
    takes the primary path and raises, where the fallback would have
    returned the rendering of the body. *)
Theorem parse_unrecognised_shape_raises {rt : PyRuntime} (provider : string) :
  _parse_result provider (PDict [("choices", PInt 1); ("model", PStr "m")])
    = Raise TypeError
  /\ _parse_result provider (PDict [("choices", PStr "none"); ("model", PStr "m")])
     = Raise AttributeError
  /\ _parse_result provider
       (PDict [("choices", PDict [("first", PStr "pong")]); ("model", PStr "m")])
     = Raise KeyError.
Proof. repeat split. Qed.

(** X22. The fallback path.  For every body whose [choices] key is absent
    or holds an empty value, the normaliser returns a result whose text is
    [str] of the whole body, whose usage is the top-level [usage] mapping
    when there is one and the empty mapping when the key is absent, whose
    finish reason is unset, whose model is the top-level [model] when the
    key is present and the empty string otherwise, and whose raw field is
    the body.  On every path that returns, the raw field is the body that
    was passed in. *)
Theorem parse_fallback_path {rt : PyRuntime} :
  (forall (provider : string) (d : dict),
      absent_or_empty (dict_get "choices" d) ->
      exists r,
        _parse_result provider (PDict d) = Ok r
        /\ text r = PStr (py_str (PDict d))
        /\ (forall u, dict_get "usage" d = Some (PDict u) -> usage r = PDict u)
        /\ (dict_get "usage" d = None -> usage r = PDict [])
        /\ finish_reason r = PNone
        /\ (forall m, dict_get "model" d = Some m -> model r = m)
        /\ (dict_get "model" d = None -> model r = PStr "")
        /\ raw r = PDict d)
  /\ (forall (provider : string) (data : pyval) (r : LLMResponse),
        _parse_result provider data = Ok r -> raw r = data).
Proof.
  split.
  - intros provider d Hc.
    eexists. split; [apply (parse_fallback_eq provider _ Hc)|].
    cbn [text model usage finish_reason raw]. unfold get_default.
    repeat split.
    + intros u ->. apply py_or_dict.
    + now intros ->.
    + now intros m ->.
    + now intros ->.
  - apply @parse_raw.
Qed.

(** C9. On the primary path, with the first choice a mapping: a null
    message, a null content, a null top-level [usage] and a null top-level
    [model] each give the default of their field (the empty string, the
    empty mapping), never null. *)
Theorem parse_null_defaults {rt : PyRuntime}
  (provider : string) (d cd : dict) (rest : list pyval) :
  dict_get "choices" d = Some (PList (PDict cd :: rest)) ->
  mapping_or_empty (dict_get "message" cd) ->
  exists r,
    _parse_result provider (PDict d) = Ok r
    /\ (dict_get "message" cd = Some PNone -> text r = PStr "")
    /\ (forall md,
          dict_get "message" cd = Some (PDict md) ->
          dict_get "content" md = Some PNone -> text r = PStr "")
    /\ (dict_get "usage" d = Some PNone -> usage r = PDict [])
    /\ (dict_get "model" d = Some PNone -> model r = PStr "")
    /\ text r <> PNone /\ usage r <> PNone /\ model r <> PNone.
Proof.
  intros Hc Hm.
  eexists. split; [apply (parse_primary_eq provider _ Hc Hm)|].
  cbn [text model usage finish_reason]. unfold message_of, get_default.
  repeat split.
  - now intros ->.
  - now intros md -> ->.
  - now intros ->.
  - now intros ->.
  - unfold py_or. destruct (truthy _) eqn:T; [|discriminate].
    intros E. rewrite E in T. discriminate T.
  - unfold py_or. destruct (truthy _) eqn:T; [|discriminate].
    intros E. rewrite E in T. discriminate T.
  - unfold py_or. destruct (truthy _) eqn:T; [|discriminate].
    intros E. rewrite E in T. discriminate T.
Qed.

(** C2. The normaliser does raise on some decoded bodies: a first choice
    whose message is a string, a first choice that is a string, a [choices]
    that is a non-empty mapping and a [choices] that is a number each end in
    an exception, not in a result. *)
Theorem parse_result_raises {rt : PyRuntime} (provider : string) :
  _parse_result provider
    (PDict [("choices", PList [PDict [("message", PStr "pong")]])])
    = Raise AttributeError
  /\ _parse_result provider (PDict [("choices", PList [PStr "pong"])])
     = Raise AttributeError
  /\ _parse_result provider (PDict [("choices", PDict [("0", PDict [])])])
     = Raise KeyError
  /\ _parse_result provider (PDict [("choices", PInt 1)])
     = Raise TypeError.
Proof. repeat split. Qed.

(** ** The client facade *)

Section StripFacts.

Variable ch : ascii.

Lemma rstrip_replicate (n : nat) : Str.rstrip ch (Str.replicate n ch) = "".
Proof.
  induction n as [|n IH]; simpl; [reflexivity|].
  now rewrite IH, Ascii.eqb_refl.
Qed.

Lemma rstrip_trailing (s : string) (n : nat) :
  Str.last s <> Some ch ->
  Str.rstrip ch (s ++ Str.replicate n ch) = s.
Proof.
  induction s as [|c s IH]; intros Hl.
  - apply rstrip_replicate.
  - cbn [append Str.rstrip]. destruct s as [|c' s].
    + cbn [append]. rewrite rstrip_replicate.
      destruct (Ascii.eqb_spec c ch) as [->|Hne]; [|reflexivity].
      exfalso. now apply Hl.
    + rewrite IH by exact Hl. reflexivity.
Qed.

Lemma lstrip_leading (s : string) (n : nat) :
  Str.first s <> Some ch ->
  Str.lstrip ch (Str.replicate n ch ++ s) = s.
Proof.
  intros Hf. induction n as [|n IH]; simpl.
  - destruct s as [|c s]; [reflexivity|]. simpl.
    destruct (Ascii.eqb_spec c ch) as [->|Hne]; [|reflexivity].
    exfalso. now apply Hf.
  - now rewrite Ascii.eqb_refl.
Qed.

(** Every string is a part that does not end in [ch] followed by a run
    of [ch]. *)
Lemma trailing_split (s : string) :
  exists s0 n, s = s0 ++ Str.replicate n ch /\ Str.last s0 <> Some ch.
Proof.
  induction s as [|c s (s0 & n & E & Hl)].
  - exists "", 0. split; [reflexivity | discriminate].
  - destruct s0 as [|c0 s0].
    + destruct (Ascii.eqb_spec c ch) as [->|Hne].
      * exists "", (S n). split; [simpl in *; now rewrite E | discriminate].
      * exists (String c ""), n. split; [simpl in *; now rewrite E|].
        simpl. congruence.
    + exists (String c (String c0 s0)), n. split; [simpl in *; now rewrite E|].
      exact Hl.
Qed.

End StripFacts.

Section FacadeFacts.

Context {rt : PyRuntime}.

(** Reading the environment only when the argument is false gives the same
    value as [or] on the two values, and leaves the world as it is. *)
Lemma or_else_environ (a : option string) (k : string) (w : World) :
  or_else a (environ_get k) w = (Ok (or_str a (lookup_env k w)), w).
Proof. now destruct a as [[|c s]|]. Qed.

Lemma base_resolution (b : option string) (w : World) :
  match or_str (or_str b (lookup_env "FACTCHAT_BASE_URL" w)) (Some DEFAULT_BASE) with
  | Some x => x
  | None => EmptyString
  end = configured_base b w.
Proof.
  unfold configured_base, or_str.
  destruct b as [[|c s]|]; try reflexivity;
    destruct (lookup_env "FACTCHAT_BASE_URL" w) as [[|c' s']|]; reflexivity.
Qed.

(** The constructor, in closed form. *)
Lemma init_eq (a b : option string) (t : option Z) (w : World) :
  __init__ a b t w =
    match or_str a (lookup_env "FACTCHAT_API_KEY" w) with
    | Some (String c k) =>
        (Ok {| api_key := Some (String c k);
               base_url := Str.rstrip "/" (configured_base b w);
               timeout := match t with Some z => z | None => 60%Z end |}, w)
    | _ => (Raise (RuntimeError "FACTCHAT_API_KEY missing"), w)
    end.
Proof.
  unfold __init__, mbind. rewrite or_else_environ.
  destruct (or_str a (lookup_env "FACTCHAT_API_KEY" w)) as [[|c k]|]; try reflexivity.
  rewrite or_else_environ. unfold ret. now rewrite base_resolution.
Qed.

Lemma init_world (a b : option string) (t : option Z) (w : World) :
  snd (__init__ a b t w) = w.
Proof.
  rewrite init_eq.
  now destruct (or_str a (lookup_env "FACTCHAT_API_KEY" w)) as [[|c k]|].
Qed.

(** A call that gets as far as the transport posts once, to the target
    address of the routed path. *)
Lemma call_posts_once (self : FactChatClient) (model user_text : string)
  (kwargs payload : dict) (path provider : string) (w : World) :
  router model = Ok (path, provider) ->
  build_payload model user_text kwargs = Ok payload ->
  posted (snd (call self model user_text kwargs w)) =
    (posted w ++ [{| url := target_url self path; headers := _headers self;
                     json := payload; req_timeout := timeout self |}])%list.
Proof.
  intros Hr Hb. unfold call, mbind, lift. rewrite Hr, Hb. cbn [fst snd].
  unfold requests_post.
  destruct (transport w (posted w) _) as [e | st body]; [reflexivity|].
  destruct (raise_for_status _) as [[]|e]; [|reflexivity].
  destruct (response_json _) as [data|e]; [|reflexivity].
  now destruct (_parse_result provider data).
Qed.

(** A call the router or the builder refuses posts nothing. *)
Lemma call_refused (self : FactChatClient) (model user_text : string)
  (kwargs : dict) (e : exn) (w : World) :
  router model = Raise e ->
  call self model user_text kwargs w = (Raise e, w).
Proof. intros Hr. unfold call, mbind, lift. now rewrite Hr. Qed.

End FacadeFacts.

(** C6. The constructor takes the credential from its argument when one
    is given, whatever the environment holds; from the environment variable
    when the argument is absent; and when neither gives one it fails with
    the configuration error, leaving the world, and with it the log of
    posted requests, as it was.  No construction posts a request. *)
Theorem init_credential_resolution {rt : PyRuntime} :
  (forall (c : ascii) (k : string) (b : option string) (t : option Z) (w : World),
      exists self,
        __init__ (Some (String c k)) b t w = (Ok self, w)
        /\ api_key self = Some (String c k))
  /\ (forall (c : ascii) (k : string) (b : option string) (t : option Z) (w : World),
        lookup_env "FACTCHAT_API_KEY" w = Some (String c k) ->
        exists self,
          __init__ None b t w = (Ok self, w)
          /\ api_key self = Some (String c k))
  /\ (forall (b : option string) (t : option Z) (w : World),
        lookup_env "FACTCHAT_API_KEY" w = None ->
        __init__ None b t w = (Raise (RuntimeError "FACTCHAT_API_KEY missing"), w))
  /\ (forall (a b : option string) (t : option Z) (w : World),
        posted (snd (__init__ a b t w)) = posted w).
Proof.
  split; [|split; [|split]].
  - intros c k b t w. rewrite init_eq. cbn [or_str]. eexists; split; reflexivity.
  - intros c k b t w E. rewrite init_eq. cbn [or_str]. rewrite E.
    eexists; split; reflexivity.
  - intros b t w E. rewrite init_eq. cbn [or_str]. now rewrite E.
  - intros a b t w. now rewrite init_world.
Qed.

(** C10. An empty-string credential argument is the same as none: the
    constructor then behaves as it does without the argument, so with the
    environment variable set to a non-empty value it returns a client that
    holds the variable's value; with the argument absent or empty and the
    environment variable absent or empty it fails with the configuration
    error; and the credential of a client that was constructed is a
    non-empty string. *)
Theorem init_empty_credential {rt : PyRuntime} :
  (forall (b : option string) (t : option Z) (w : World),
      __init__ (Some "") b t w = __init__ None b t w)
  /\ (forall (a b : option string) (t : option Z) (w : World) (c : ascii) (k : string),
        a = None \/ a = Some "" ->
        lookup_env "FACTCHAT_API_KEY" w = Some (String c k) ->
        exists self,
          __init__ a b t w = (Ok self, w)
          /\ api_key self = Some (String c k))
  /\ (forall (a b : option string) (t : option Z) (w : World),
        a = None \/ a = Some "" ->
        lookup_env "FACTCHAT_API_KEY" w = None
        \/ lookup_env "FACTCHAT_API_KEY" w = Some "" ->
        __init__ a b t w = (Raise (RuntimeError "FACTCHAT_API_KEY missing"), w))
  /\ (forall (a b : option string) (t : option Z) (w w' : World) (self : FactChatClient),
        __init__ a b t w = (Ok self, w') ->
        exists k, api_key self = Some k /\ k <> "").
Proof.
  split; [|split; [|split]].
  - intros b t w. now rewrite !init_eq.
  - intros a b t w c k Ha E. rewrite init_eq.
    destruct Ha as [-> | ->]; cbn [or_str]; rewrite E;
      eexists; split; reflexivity.
  - intros a b t w [-> | ->] [E | E]; rewrite init_eq; cbn [or_str]; now rewrite E.
  - intros a b t w w' self. rewrite init_eq.
    destruct (or_str a (lookup_env "FACTCHAT_API_KEY" w)) as [[|c k]|];
      try discriminate.
    intros E; inversion E; subst. cbn [api_key].
    eexists; split; [reflexivity | discriminate].
Qed.

(** C7. Let a client be constructed where the configured base address is
    [base0] followed by any number of slashes, [base0] itself not ending in
    one.  Then the target address for a path made of any number of slashes
    followed by [path0], [path0] not beginning with one, is [base0], one
    slash, [path0]; and a call with a model the router accepts posts
    exactly one request, to [base0], one slash, and the routed path. *)
Theorem call_joins_with_one_slash {rt : PyRuntime}
  (a b : option string) (t : option Z) (w w1 : World) (self : FactChatClient)
  (base0 : string) (nb : nat) :
  __init__ a b t w = (Ok self, w1) ->
  configured_base b w = base0 ++ Str.replicate nb "/" ->
  Str.last base0 <> Some "/"%char ->
  (forall (path0 : string) (np : nat),
      Str.first path0 <> Some "/"%char ->
      target_url self (Str.replicate np "/" ++ path0) = base0 ++ "/" ++ path0)
  /\ (forall (model user_text : string) (kwargs payload : dict)
             (path provider : string) (w2 : World),
        router model = Ok (path, provider) ->
        build_payload model user_text kwargs = Ok payload ->
        exists rq,
          posted (snd (call self model user_text kwargs w2)) = (posted w2 ++ [rq])%list
          /\ url rq = base0 ++ "/" ++ path).
Proof.
  intros Hi Hb Hl.
  assert (Hbase : base_url self = base0).
  { rewrite init_eq in Hi.
    destruct (or_str a (lookup_env "FACTCHAT_API_KEY" w)) as [[|c k]|];
      try discriminate.
    inversion Hi; subst. cbn [base_url]. rewrite Hb. now apply rstrip_trailing. }
  split.
  - intros path0 np Hf. unfold target_url.
    now rewrite Hbase, lstrip_leading.
  - intros model user_text kwargs payload path provider w2 Hr Hp.
    eexists. split; [eapply call_posts_once; eassumption|].
    cbn [url]. unfold target_url. rewrite Hbase.
    destruct (router_range _ Hr) as [[-> _] | [-> _]]; reflexivity.
Qed.

(** ** The properties at concrete inputs *)

Ltac same_letter_tac :=
  first [ left; reflexivity
        | right; left; split; [cbn; lia | reflexivity]
        | right; right; split; [cbn; lia | reflexivity] ].

Ltac ci_prefix_tac h t :=
  exists h, t; split; [reflexivity | cbn [Str.ci_eq]; repeat split; same_letter_tac].

Ltac not_ci_prefix_tac :=
  let H := fresh in
  intros H; apply startswith_lower_iff in H; [discriminate H | reflexivity].

Ltac kwargs_ok_tac :=
  unfold kwargs_ok; cbn [keys map fst];
  repeat split;
  [ repeat constructor; cbn [In]; intuition discriminate
  | cbn [In]; intuition discriminate .. ].

Lemma router_by_prefix_witness :
  router "Claude-3-Opus" = Ok ("anthropic/messages", "anthropic")
  /\ router "GPT-4o" = Ok ("openai/chat/completions", "openai")
  /\ router "gemini-pro" = Raise (ValueError "Unsupported model: gemini-pro").
Proof.
  split; [|split].
  - apply (proj1 (router_by_prefix "Claude-3-Opus")).
    ci_prefix_tac "Claude-" "3-Opus".
  - apply (proj1 (proj2 (router_by_prefix "GPT-4o"))).
    ci_prefix_tac "GPT-" "4o".
  - apply (proj2 (proj2 (router_by_prefix "gemini-pro"))); not_ci_prefix_tac.
Defined.

Lemma build_payload_anthropic_witness :
  exists payload,
    build_payload (rt := Ascii7.runtime) "claude-3-haiku" "ping"
      [("max_tokens", PInt 10); ("temperature", PInt 0)] = Ok payload
    /\ dict_get "model" payload = Some (PStr "claude-3-haiku")
    /\ dict_get "max_tokens" payload = Some (PInt 10)
    /\ dict_get "temperature" payload = Some (PInt 0)
    /\ dict_get "messages" payload =
         Some (PList [PDict [("role", PStr "user"); ("content", PStr "ping")]]).
Proof.
  destruct (@build_payload_anthropic Ascii7.runtime "claude-3-haiku" "ping"
              [("max_tokens", PInt 10); ("temperature", PInt 0)])
    as (payload & E & Hmodel & _ & Hmsg & Hkw & _).
  - ci_prefix_tac "claude-" "3-haiku".
  - kwargs_ok_tac.
  - exists payload. split; [exact E|]. split; [exact Hmodel|].
    split; [apply Hkw; reflexivity|]. split; [apply Hkw; reflexivity|].
    apply Hmsg; reflexivity.
Defined.

Lemma build_payload_openai_witness :
  exists payload,
    build_payload (rt := Ascii7.runtime) "gpt-5-mini" "ping"
      [("temperature", PInt 1)] = Ok payload
    /\ dict_get "model" payload = Some (PStr "gpt-5-mini")
    /\ dict_get "temperature" payload = Some (PInt 1)
    /\ dict_get "max_tokens" payload = None.
Proof.
  destruct (@build_payload_openai Ascii7.runtime "gpt-5-mini" "ping"
              [("temperature", PInt 1)])
    as (payload & E & Hmodel & _ & Hkw & _ & Hmt & _).
  - ci_prefix_tac "gpt-" "5-mini".
  - kwargs_ok_tac.
  - exists payload. split; [exact E|]. split; [exact Hmodel|].
    split; [apply Hkw; reflexivity | exact Hmt].
Defined.

Lemma parse_primary_path_witness :
  exists r,
    _parse_result (rt := Ascii7.runtime) "openai"
      (PDict [("choices",
               PList [PDict [("message", PDict [("content", PStr "pong")]);
                             ("finish_reason", PStr "stop")]]);
              ("usage", PDict [("total_tokens", PInt 5)]);
              ("model", PStr "gpt-5-mini")]) = Ok r
    /\ text r = PStr "pong"
    /\ finish_reason r = PStr "stop"
    /\ usage r = PDict [("total_tokens", PInt 5)]
    /\ model r = PStr "gpt-5-mini"
    /\ exists r0,
         _parse_result (rt := Ascii7.runtime) "openai"
           (PDict [("choices", PList [PDict [("message", PDict [("content", PInt 0)])]]);
                   ("usage", PInt 0)]) = Ok r0
         /\ text r0 = PStr ""
         /\ usage r0 = PDict []
         /\ model r0 = PStr "".
Proof.
  destruct (proj1 (@parse_primary_path Ascii7.runtime) "openai"
              [("choices",
                PList [PDict [("message", PDict [("content", PStr "pong")]);
                              ("finish_reason", PStr "stop")]]);
               ("usage", PDict [("total_tokens", PInt 5)]);
               ("model", PStr "gpt-5-mini")]
              [("message", PDict [("content", PStr "pong")]);
               ("finish_reason", PStr "stop")]
              [] eq_refl I)
    as (r & E & Ht & _ & _ & _ & _ & _ & Hf & _ & Hu & _ & _ & _ & Hm & _ & _ & _).
  destruct (proj1 (@parse_primary_path Ascii7.runtime) "openai"
              [("choices", PList [PDict [("message", PDict [("content", PInt 0)])]]);
               ("usage", PInt 0)]
              [("message", PDict [("content", PInt 0)])]
              [] eq_refl I)
    as (r0 & E0 & _ & _ & Ht0 & _ & _ & _ & _ & _ & _ & _ & Hu0 & _ & _ & _ & _ & Hm0).
  exists r. split; [exact E|].
  split; [apply (Ht [("content", PStr "pong")]); reflexivity|].
  split; [apply Hf; reflexivity|].
  split; [apply Hu; reflexivity|].
  split; [apply Hm; reflexivity|].
  exists r0. split; [exact E0|].
  split; [apply (Ht0 [("content", PInt 0)] (PInt 0)); reflexivity|].
  split; [apply (Hu0 (PInt 0)); reflexivity | apply Hm0; reflexivity].
Defined.

(** The claim C4 as it was worded does not hold: on the body
    [{"choices": [{"message": {"content": 0}}]}], which has a non-empty list
    of choices, the content of the first choice's message is the number 0
    and the text of the result is the empty string. *)
Lemma parse_primary_path_counterexample :
  dict_get "content"
    (message_of (rt := Ascii7.runtime) [("message", PDict [("content", PInt 0)])])
    = Some (PInt 0)
  /\ ~ (exists r,
          _parse_result (rt := Ascii7.runtime) "openai"
            (PDict [("choices", PList [PDict [("message", PDict [("content", PInt 0)])]])])
            = Ok r
          /\ text r = PInt 0).
Proof.
  split; [reflexivity|].
  intros (r & E & T). injection E as <-. discriminate T.
Qed.

Lemma parse_fallback_path_witness :
  exists r,
    _parse_result (rt := Ascii7.runtime) "anthropic"
      (PDict [("content", PList [PDict [("type", PStr "text"); ("text", PStr "pong")]]);
              ("model", PStr "claude-3-haiku");
              ("usage", PDict [("input_tokens", PInt 8)])]) = Ok r
    /\ text r =
         PStr "{'content': [{'type': 'text', 'text': 'pong'}], 'model': 'claude-3-haiku', 'usage': {'input_tokens': 8}}"
    /\ usage r = PDict [("input_tokens", PInt 8)]
    /\ finish_reason r = PNone
    /\ model r = PStr "claude-3-haiku".
Proof.
  destruct (proj1 (@parse_fallback_path Ascii7.runtime) "anthropic"
              [("content", PList [PDict [("type", PStr "text"); ("text", PStr "pong")]]);
               ("model", PStr "claude-3-haiku");
               ("usage", PDict [("input_tokens", PInt 8)])] I)
    as (r & E & Ht & Hu & _ & Hf & Hm & _).
  exists r. split; [exact E|].
  split; [rewrite Ht; reflexivity|].
  split; [apply Hu; reflexivity|].
  split; [exact Hf | apply Hm; reflexivity].
Defined.

Lemma parse_null_defaults_witness :
  exists r,
    _parse_result (rt := Ascii7.runtime) "openai"
      (PDict [("choices", PList [PDict [("message", PDict [("content", PNone)])]]);
              ("usage", PNone);
              ("model", PNone)]) = Ok r
    /\ text r = PStr ""
    /\ usage r = PDict []
    /\ model r = PStr "".
Proof.
  destruct (@parse_null_defaults Ascii7.runtime "openai"
              [("choices", PList [PDict [("message", PDict [("content", PNone)])]]);
               ("usage", PNone);
               ("model", PNone)]
              [("message", PDict [("content", PNone)])]
              [] eq_refl I)
    as (r & E & _ & Ht & Hu & Hm & _).
  exists r. split; [exact E|].
  split; [apply (Ht [("content", PNone)]); reflexivity|].
  split; [apply Hu; reflexivity | apply Hm; reflexivity].
Defined.

Lemma init_credential_resolution_witness :
  (exists self,
      __init__ None None None Sample.configured = (Ok self, Sample.configured)
      /\ api_key self = Some "sk-env")
  /\ __init__ None None None Sample.bare =
       (Raise (RuntimeError "FACTCHAT_API_KEY missing"), Sample.bare).
Proof.
  split.
  - apply (proj1 (proj2 (@init_credential_resolution Ascii7.runtime))).
    reflexivity.
  - apply (proj1 (proj2 (proj2 (@init_credential_resolution Ascii7.runtime)))).
    reflexivity.
Defined.

Lemma init_empty_credential_witness :
  (exists self,
      __init__ (Some "") None None Sample.configured = (Ok self, Sample.configured)
      /\ api_key self = Some "sk-env")
  /\ __init__ (Some "") None None Sample.blank =
       (Raise (RuntimeError "FACTCHAT_API_KEY missing"), Sample.blank)
  /\ (exists k,
        api_key {| api_key := Some "sk-test";
                   base_url := DEFAULT_BASE;
                   timeout := 60 |} = Some k /\ k <> "").
Proof.
  split; [|split].
  - apply (proj1 (proj2 (@init_empty_credential Ascii7.runtime))
             (Some "") None None Sample.configured "s"%char "k-env").
    + right; reflexivity.
    + reflexivity.
  - apply (proj1 (proj2 (proj2 (@init_empty_credential Ascii7.runtime)))).
    + right; reflexivity.
    + right; reflexivity.
  - apply (proj2 (proj2 (proj2 (@init_empty_credential Ascii7.runtime)))
             (Some "sk-test") None None Sample.bare Sample.bare).
    reflexivity.
Defined.

Lemma call_joins_with_one_slash_witness :
  exists (self : @FactChatClient) rq,
    __init__ (Some "sk-test") None (Some 30%Z) Sample.configured
      = (Ok self, Sample.configured)
    /\ target_url self "//openai/chat/completions"
       = "https://example.test/api/openai/chat/completions"
    /\ posted (snd (call self "gpt-5-mini" "ping" [] Sample.configured)) = [rq]
    /\ url rq = "https://example.test/api/openai/chat/completions".
Proof.
  pose (self := {| api_key := Some "sk-test";
                   base_url := "https://example.test/api";
                   timeout := 30%Z |}).
  destruct (@call_joins_with_one_slash Ascii7.runtime
              (Some "sk-test") None (Some 30%Z) Sample.configured Sample.configured
              self "https://example.test/api" 2)
    as (Hjoin & Hcall).
  - reflexivity.
  - reflexivity.
  - cbn. discriminate.
  - destruct (Hcall "gpt-5-mini" "ping" [] 
                [("model", PStr "gpt-5-mini"); ("messages", user_messages "ping")]
                "openai/chat/completions" "openai" Sample.configured
                eq_refl eq_refl)
      as (rq & Hposted & Hurl).
    exists self, rq. split; [reflexivity|].
    split; [apply (Hjoin "openai/chat/completions" 2); cbn; discriminate|].
    split; [exact Hposted | exact Hurl].
Defined.

(** The whole round trip on the sample world: credential [sk-test], model
    [gpt-5-mini], prompt [ping], a remote end that answers with the sample
    body; the text of the result is [pong]. *)
Lemma call_end_to_end :
  let self := {| api_key := Some "sk-test"; base_url := DEFAULT_BASE; timeout := 60 |} in
  __init__ (Some "sk-test") None None Sample.bare = (Ok self, Sample.bare)
  /\ fst (call self "gpt-5-mini" "ping" [] Sample.bare) =
       Ok {| text := PStr "pong";
             model := PStr "gpt-5-mini";
             usage := PDict [("total_tokens", PInt 5)];
             finish_reason := PStr "stop";
             raw := pong_body |}
  /\ map url (posted (snd (call self "gpt-5-mini" "ping" [] Sample.bare))) =
       ["https://factchat-cloud.mindlogic.ai/v1/api/openai/chat/completions"].
Proof. repeat split. Qed.


(** ** More on the router and the builder *)

Section RouterMore.





End RouterMore.


(** X2. The router has two routes and no other: the path
    [anthropic/messages] goes with the provider [anthropic], the path
    [openai/chat/completions] with [openai]; the provider decides the path,
    and no path begins with a slash. *)
Theorem router_two_routes (model path provider : string) :
  router model = Ok (path, provider) ->
  ((path = "anthropic/messages" /\ provider = "anthropic")
   \/ (path = "openai/chat/completions" /\ provider = "openai"))
  /\ (forall model' path',
        router model' = Ok (path', provider) -> path' = path)
  /\ Str.first path <> Some "/"%char.
Proof.
  intros H. pose proof (router_range _ H) as R. split; [exact R|]. split.
  - intros model' path' H'. pose proof (router_range _ H') as R'.
    destruct R as [[-> ->] | [-> ->]]; destruct R' as [[-> E] | [-> E]];
      try reflexivity; discriminate E.
  - destruct R as [[-> _] | [-> _]]; discriminate.
Qed.

Section BuilderMore.

Context {rt : PyRuntime}.

(** The builder has a case for every provider the router produces. *)
Lemma build_payload_of_route (model user_text path provider : string) (kwargs : dict) :
  router model = Ok (path, provider) ->
  exists payload, build_payload model user_text kwargs = Ok payload.
Proof.
  intros H. unfold build_payload. rewrite H. cbn [bind snd].
  destruct (router_range _ H) as [[_ ->] | [_ ->]]; eexists; reflexivity.
Qed.

Lemma build_payload_of_refusal (model user_text : string) (kwargs : dict) (e : exn) :
  router model = Raise e -> build_payload model user_text kwargs = Raise e.
Proof. intros H. unfold build_payload. now rewrite H. Qed.

Lemma router_raise_inv (model : string) (e : exn) :
  router model = Raise e -> e = ValueError ("Unsupported model: " ++ model).
Proof.
  unfold router.
  destruct (Str.startswith (Str.lower model) "claude-"); [discriminate|].
  destruct (Str.startswith (Str.lower model) "gpt-"); [discriminate|].
  now intros [= <-].
Qed.

Lemma dict_set_fresh (k : string) (v : pyval) (d : dict) :
  ~ In k (keys d) -> dict_set k v d = (d ++ [(k, v)])%list.
Proof.
  induction d as [|[k' v'] d IH]; simpl; intros H; [reflexivity|].
  destruct (String.eqb_spec k' k) as [->|Hne]; [exfalso; apply H; now left|].
  rewrite IH; [reflexivity | tauto].
Qed.

(** Updating with keys the receiver does not have appends them in order. *)
Lemma dict_update_fresh (d kw : dict) :
  NoDup (keys kw) ->
  (forall k, In k (keys kw) -> ~ In k (keys d)) ->
  dict_update d kw = (d ++ kw)%list.
Proof.
  unfold dict_update. revert d.
  induction kw as [|[k v] kw IH]; intros d Hnd Hfresh; simpl.
  - now rewrite app_nil_r.
  - inversion Hnd as [|? ? Hnotin Hnd']; subst.
    rewrite dict_set_fresh by (apply Hfresh; now left).
    rewrite IH.
    + now rewrite <- app_assoc.
    + exact Hnd'.
    + intros k' Hin. unfold keys. rewrite map_app, in_app_iff. simpl.
      intros [Hd | [<- | []]].
      * apply (Hfresh k'); [now right | exact Hd].
      * apply Hnotin, Hin.
Qed.

Lemma dict_remove_absent (k : string) (d : dict) :
  ~ In k (keys d) -> dict_remove k d = d.
Proof.
  induction d as [|[k' v'] d IH]; simpl; intros H; [reflexivity|].
  destruct (String.eqb_spec k' k) as [->|Hne]; [exfalso; apply H; now left|].
  rewrite IH; [reflexivity | tauto].
Qed.

Lemma keys_dict_remove_not (k : string) (d : dict) : ~ In k (keys (dict_remove k d)).
Proof.
  induction d as [|[k' v'] d IH]; simpl; [tauto|].
  destruct (String.eqb_spec k' k) as [->|Hne]; simpl; [exact IH|].
  intros [E | I]; [congruence | tauto].
Qed.

End BuilderMore.

(** X3. The builder fails exactly when the router does, and with the
    router's exception: for a name the router accepts it returns a body
    whatever extra keyword arguments the call binds, and the only exception
    it can end in is the unsupported-model error that carries the name.
    The unsupported-provider error is never raised. *)
Theorem build_payload_fails_as_router {rt : PyRuntime}
  (model user_text : string) (kwargs : dict) :
  kwargs_ok kwargs ->
  (forall e, router model = Raise e ->
     build_payload model user_text kwargs = Raise e)
  /\ (forall route, router model = Ok route ->
        exists payload, build_payload model user_text kwargs = Ok payload)
  /\ (forall e, build_payload model user_text kwargs = Raise e ->
        e = ValueError ("Unsupported model: " ++ model)).
Proof.
  intros _. split; [|split].
  - intros e. apply build_payload_of_refusal.
  - intros [path provider] H. eapply build_payload_of_route, H.
  - intros e H. destruct (router model) as [[path provider]|e'] eqn:R.
    + destruct (@build_payload_of_route _ model user_text path provider kwargs R)
        as [payload E].
      rewrite E in H. discriminate H.
    + rewrite (@build_payload_of_refusal _ model user_text kwargs e' R) in H.
      injection H as <-. now apply router_raise_inv.
Qed.

(** X4. When the caller gives no [messages], the fields of the body come
    in a fixed order.  Anthropic-style: [model], [max_tokens] (the caller's
    value, else 256), [messages], then the caller's other fields in the
    order given.  OpenAI-style, with no [messages] given: [model],
    [messages], then all the caller's fields in the order given. *)
Theorem build_payload_field_order {rt : PyRuntime}
  (model user_text : string) (kwargs : dict) :
  kwargs_ok kwargs ->
  dict_get "messages" kwargs = None ->
  (Str.ci_starts_with model "claude-" ->
     build_payload model user_text kwargs =
       Ok ([("model", PStr model);
            ("max_tokens", get_default "max_tokens" (PInt 256) kwargs);
            ("messages",
             PList [PDict [("role", PStr "user"); ("content", PStr user_text)]])]
           ++ dict_remove "max_tokens" kwargs)%list)
  /\ (Str.ci_starts_with model "gpt-" ->
        build_payload model user_text kwargs =
          Ok ([("model", PStr model);
               ("messages",
                PList [PDict [("role", PStr "user"); ("content", PStr user_text)]])]
              ++ kwargs)%list).
Proof.
  intros Hkw Hmsg. pose proof Hkw as (Hnd & _ & Hmodel & _).
  apply dict_get_absent in Hmsg.
  split; intros Hm.
  - rewrite (build_payload_anthropic_eq _ _ Hm).
    rewrite dict_update_fresh; [reflexivity | now apply NoDup_dict_remove |].
    intros k Hin. cbn [keys map fst In].
    intros [<- | [<- | [<- | []]]].
    + apply Hmodel. eapply keys_dict_remove, Hin.
    + exact (keys_dict_remove_not _ _ Hin).
    + apply Hmsg. eapply keys_dict_remove, Hin.
  - rewrite (build_payload_openai_eq _ _ Hm).
    rewrite dict_update_fresh; [reflexivity | exact Hnd |].
    intros k Hin. cbn [keys map fst In].
    intros [<- | [<- | []]]; [now apply Hmodel | now apply Hmsg].
Qed.


(** ** More on the normaliser *)

Section NormaliserMore.

Context {rt : PyRuntime}.

Lemma py_or_empty (v dflt : pyval) :
  truthy (py_or v dflt) = false -> py_or v dflt = dflt.
Proof.
  unfold py_or. destruct (truthy v) eqn:T; [|reflexivity].
  intros E. rewrite E in T. discriminate T.
Qed.

(** The provider argument plays no part in the parse. *)
Lemma parse_any_provider (p p' : string) (data : pyval) :
  _parse_result p data = _parse_result p' data.
Proof. reflexivity. Qed.

(** The exception of a body whose [choices] is not empty. *)
Lemma parse_primary_raise (provider : string) (d : dict) (v : pyval) (e : exn) :
  dict_get "choices" d = Some v ->
  truthy v = true ->
  _parse_result provider (PDict d) = Raise e ->
  match v with
  | PNone | PBool _ | PInt _ | PFloat _ => e = TypeError
  | PDict _ => e = KeyError
  | PStr _ | PList _ => e = AttributeError
  end.
Proof.
  intros Hc T. unfold _parse_result, dict_mem, getitem.
  unfold get_default at 1. rewrite Hc, T. cbn [andb bind].
  destruct v as [|b|z|f|s|[|c rest]|cd]; cbn [subscript0 bind];
    try (intros [= <-]; reflexivity); try discriminate T.
  - destruct s; [discriminate T|]. cbn [bind method_get]. now intros [= <-].
  - destruct c; cbn [method_get bind]; try (intros [= <-]; reflexivity).
    destruct (py_or _ _); cbn [method_get bind]; intros [= <-]; reflexivity.
Qed.

End NormaliserMore.

(** X5. The normaliser returns a result exactly on the mappings whose
    [choices] is absent or empty, or is a list that begins with a mapping
    whose message is absent, empty or a mapping.  On every other body (one
    that is not a mapping, a [choices] that is a non-empty string, number or
    mapping, a first choice or a message of another type) it raises. *)
Theorem normaliser_returns_exactly {rt : PyRuntime} (provider : string) (data : pyval) :
  (exists r, _parse_result provider data = Ok r) <->
  (exists d,
      data = PDict d
      /\ (absent_or_empty (dict_get "choices" d)
          \/ exists cd rest,
               dict_get "choices" d = Some (PList (PDict cd :: rest))
               /\ mapping_or_empty (dict_get "message" cd))).
Proof. apply parse_returns_iff. Qed.

(** X6. When the normaliser raises, the exception is a type error, an
    attribute error or a key error, never an index error.  It is the key
    error exactly when [choices] is a non-empty mapping, and the type error
    exactly when the body is not a container or [choices] is a number or a
    boolean that is not zero or false. *)
Theorem normaliser_error_kinds {rt : PyRuntime}
  (provider : string) (data : pyval) (e : exn) :
  _parse_result provider data = Raise e ->
  (e = TypeError \/ e = AttributeError \/ e = KeyError)
  /\ (e = KeyError <->
      exists d kv rest,
        data = PDict d /\ dict_get "choices" d = Some (PDict (kv :: rest)))
  /\ (e = TypeError <->
      scalar data
      \/ exists d v,
           data = PDict d /\ dict_get "choices" d = Some v
           /\ scalar v /\ truthy v = true).
Proof.
  intros H.
  destruct data as [|b|z|f|s|l|d].
  1-4: injection H as <-; split; [auto|]; split;
       [split; [discriminate | intros (d & kv & rest & E & _); discriminate E]
       | split; [intros _; left; exact I | reflexivity]].
  1-2: injection H as <-; split; [auto|]; split;
       [split; [discriminate | intros (d & kv & rest & E & _); discriminate E]
       | split; [discriminate | intros [[] | (d & v & E & _)]; discriminate E]].
  destruct (dict_get "choices" d) as [v|] eqn:Hc.
  2: { rewrite (parse_fallback_eq provider d) in H; [discriminate H|].
       unfold absent_or_empty. now rewrite Hc. }
  destruct (truthy v) eqn:T.
  2: { rewrite (parse_fallback_eq provider d) in H; [discriminate H|].
       unfold absent_or_empty. now rewrite Hc. }
  pose proof (parse_primary_raise provider d Hc T H) as K.
  destruct v as [|b|z|f|s|l|cd]; subst e;
    try discriminate T;
    (split; [auto|]; split; split; try discriminate; try reflexivity).
  all: try (intros (d' & kv & rest & E & Hc'); injection E as <-;
            rewrite Hc in Hc'; discriminate Hc').
  all: try (intros _; right; exists d; eexists; split; [reflexivity|];
            split; [exact Hc|]; split; [exact I | exact T]).
  all: try (intros [[] | (d' & v & E & Hc' & Sc & _)]; injection E as <-;
            rewrite Hc in Hc'; injection Hc' as <-; destruct Sc).
  intros _.
  match type of Hc with
  | _ = Some (PDict ?x) =>
      destruct x as [|kv rest]; [discriminate T|];
      exists d, kv, rest; split; [reflexivity | exact Hc]
  end.
Qed.

(** X7. The parsed fields depend on the first choice and on the top-level
    [usage] and [model] only: two bodies that agree on these give the same
    text, model, usage and finish reason, or the same exception, whatever
    their other choices and other keys are and whatever the provider. *)
Theorem normaliser_reads_first_choice {rt : PyRuntime}
  (p1 p2 : string) (d1 d2 : dict) (c : pyval) (rest1 rest2 : list pyval) :
  dict_get "choices" d1 = Some (PList (c :: rest1)) ->
  dict_get "choices" d2 = Some (PList (c :: rest2)) ->
  dict_get "usage" d1 = dict_get "usage" d2 ->
  dict_get "model" d1 = dict_get "model" d2 ->
  result_map parsed_fields (_parse_result p1 (PDict d1)) =
  result_map parsed_fields (_parse_result p2 (PDict d2)).
Proof.
  intros H1 H2 Hu Hm.
  unfold _parse_result, dict_mem, getitem, get_default.
  rewrite H1, H2, Hu, Hm. cbn [truthy andb bind subscript0].
  destruct (method_get "message" (PDict []) c) as [m|e]; cbn [bind result_map];
    [|reflexivity].
  destruct (method_get "content" (PStr "") (py_or m (PDict []))) as [t|e];
    cbn [bind result_map]; [|reflexivity].
  destruct (method_get "finish_reason" PNone c) as [f|e]; reflexivity.
Qed.

(** X8. In every result the normaliser returns, an empty text is the empty
    string and an empty usage is the empty mapping: neither is ever null,
    false, zero or an empty container of another kind.  On the primary path
    the same holds for the model; on the fallback path the finish reason is
    unset and the text is never empty. *)
Theorem normaliser_field_defaults {rt : PyRuntime}
  (provider : string) (data : pyval) (r : LLMResponse) :
  _parse_result provider data = Ok r ->
  (truthy (text r) = false -> text r = PStr "")
  /\ (truthy (usage r) = false -> usage r = PDict [])
  /\ (forall d v,
        data = PDict d -> dict_get "choices" d = Some v -> truthy v = true ->
        truthy (model r) = false -> model r = PStr "")
  /\ (forall d,
        data = PDict d -> absent_or_empty (dict_get "choices" d) ->
        finish_reason r = PNone /\ truthy (text r) = true).
Proof.
  intros H.
  destruct (proj1 (parse_returns_iff provider data) (ex_intro _ r H))
    as (d & -> & [Hc | (cd & rest & Hc & Hmsg)]).
  - rewrite (parse_fallback_eq provider d Hc) in H. injection H as <-.
    cbn [text usage model finish_reason].
    split; [|split; [|split]].
    + intros E. discriminate E.
    + apply py_or_empty.
    + intros d' v [= <-] Hc' T. unfold absent_or_empty in Hc.
      rewrite Hc' in Hc. rewrite Hc in T. discriminate T.
    + intros d' _ _. split; reflexivity.
  - rewrite (parse_primary_eq provider d Hc Hmsg) in H. injection H as <-.
    cbn [text usage model finish_reason].
    split; [|split; [|split]].
    + apply py_or_empty.
    + apply py_or_empty.
    + intros d' v _ _ _. apply py_or_empty.
    + intros d' [= <-] Ha. unfold absent_or_empty in Ha. rewrite Hc in Ha.
      discriminate Ha.
Qed.

(** X9. The raw field is enough to reproduce a result: normalising the raw
    body of a result again, for any provider, gives that same result. *)
Theorem normaliser_reparse_raw {rt : PyRuntime}
  (provider provider' : string) (data : pyval) (r : LLMResponse) :
  _parse_result provider data = Ok r ->
  _parse_result provider' (raw r) = Ok r.
Proof.
  intros H. rewrite (parse_raw _ _ H).
  rewrite (parse_any_provider provider' provider). exact H.
Qed.

(** ** More on the facade *)

Section FacadeMore.

Context {rt : PyRuntime}.

Lemma last_rstrip (ch : ascii) (s : string) : Str.last (Str.rstrip ch s) <> Some ch.
Proof.
  destruct (trailing_split ch s) as (s0 & n & -> & Hl).
  now rewrite rstrip_trailing.
Qed.

(** A call on a routed name, in closed form. *)
Lemma call_eq (self : FactChatClient) (model user_text : string)
  (kwargs payload : dict) (path provider : string) (w : World) :
  router model = Ok (path, provider) ->
  build_payload model user_text kwargs = Ok payload ->
  call self model user_text kwargs w =
    let rq := request_of self path payload in
    match transport w (posted w) rq with
    | NoReply e => (Raise e, logged w rq)
    | Answer st body =>
        if ((400 <=? st) && (st <? 600))%Z then (Raise (HTTPError st), logged w rq)
        else
          match body with
          | None => (Raise JSONDecodeError, logged w rq)
          | Some data => (_parse_result provider data, logged w rq)
          end
    end.
Proof.
  intros Hr Hb. unfold call, mbind, lift. rewrite Hr, Hb. cbn [fst snd].
  unfold requests_post, request_of, logged. cbn zeta.
  destruct (transport w (posted w) _) as [e | st body]; [reflexivity|].
  unfold raise_for_status, response_json. cbn [status_code decoded].
  destruct ((400 <=? st) && (st <? 600))%Z; [reflexivity|].
  destruct body as [data|]; [|reflexivity].
  now destruct (_parse_result provider data).
Qed.

Lemma error_status_test (st : Z) :
  ((400 <=? st) && (st <? 600))%Z = true <-> error_status st.
Proof.
  unfold error_status. rewrite andb_true_iff, Z.leb_le, Z.ltb_lt. tauto.
Qed.

Lemma error_status_test_not (st : Z) :
  ((400 <=? st) && (st <? 600))%Z = false <-> ~ error_status st.
Proof.
  rewrite <- error_status_test. now destruct ((400 <=? st) && (st <? 600))%Z.
Qed.

End FacadeMore.

(** X10. A constructed client has a base address that does not end in a
    slash: the constructor's argument when it is given and not empty, else
    the environment variable when it is set and not empty, else the default
    address, each with its trailing slashes removed.  Its timeout is the
    argument, or 60 when none is given. *)
Theorem init_base_and_timeout {rt : PyRuntime}
  (a b : option string) (t : option Z) (w w1 : World) (self : FactChatClient) :
  __init__ a b t w = (Ok self, w1) ->
  Str.last (base_url self) <> Some "/"%char
  /\ (forall c s, b = Some (String c s) ->
        base_url self = Str.rstrip "/" (String c s))
  /\ (forall c s,
        b = None \/ b = Some "" ->
        lookup_env "FACTCHAT_BASE_URL" w = Some (String c s) ->
        base_url self = Str.rstrip "/" (String c s))
  /\ (b = None \/ b = Some "" ->
      lookup_env "FACTCHAT_BASE_URL" w = None
      \/ lookup_env "FACTCHAT_BASE_URL" w = Some "" ->
      base_url self = DEFAULT_BASE)
  /\ (forall z, t = Some z -> timeout self = z)
  /\ (t = None -> timeout self = 60%Z).
Proof.
  rewrite init_eq.
  destruct (or_str a (lookup_env "FACTCHAT_API_KEY" w)) as [[|c0 k]|];
    try discriminate.
  intros E; inversion E; subst; clear E. cbn [base_url timeout].
  split; [apply last_rstrip|]. unfold configured_base.
  split; [now intros c s ->|].
  split; [now intros c s [-> | ->] ->|].
  split; [now intros [-> | ->] [-> | ->]|].
  split; [now intros z -> | now intros ->].
Qed.

(** X11. The one request of a call carries the client's configuration: for
    a client the constructor returned and a model the router accepts, the
    request posted has the two headers [Authorization: Bearer] followed by
    the client's credential, which is not empty, and [Content-Type:
    application/json], the client's timeout, and for JSON body the payload
    the builder returns for the same arguments. *)
Theorem call_request_carries_configuration {rt : PyRuntime}
  (a b : option string) (t : option Z) (w w1 w2 : World) (self : FactChatClient)
  (model user_text path provider : string) (kwargs : dict) :
  __init__ a b t w = (Ok self, w1) ->
  router model = Ok (path, provider) ->
  exists key payload rq,
    api_key self = Some key /\ key <> ""
    /\ build_payload model user_text kwargs = Ok payload
    /\ posted (snd (call self model user_text kwargs w2)) = (posted w2 ++ [rq])%list
    /\ headers rq = [("Authorization", "Bearer " ++ key);
                     ("Content-Type", "application/json")]
    /\ json rq = payload
    /\ req_timeout rq = match t with Some z => z | None => 60%Z end.
Proof.
  intros Hi Hr. rewrite init_eq in Hi.
  destruct (or_str a (lookup_env "FACTCHAT_API_KEY" w)) as [[|c0 k]|];
    try discriminate.
  inversion Hi; subst; clear Hi.
  destruct (@build_payload_of_route _ model user_text path provider kwargs Hr)
    as [payload Hb].
  exists (String c0 k), payload. eexists.
  split; [reflexivity|]. split; [discriminate|]. split; [exact Hb|].
  split; [eapply call_posts_once; eassumption|].
  repeat split.
Qed.

(** X12. A call with a model name of neither family ends in the
    unsupported-model error carrying the name and leaves the world as it
    was: nothing is posted. *)
Theorem call_unsupported_model {rt : PyRuntime}
  (self : FactChatClient) (model user_text : string) (kwargs : dict) (w : World) :
  ~ Str.ci_starts_with model "claude-" ->
  ~ Str.ci_starts_with model "gpt-" ->
  call self model user_text kwargs w =
    (Raise (ValueError ("Unsupported model: " ++ model)), w).
Proof.
  intros Hc Hg. apply call_refused. now apply router_other.
Qed.

(** X13. A call posts one request when the router accepts the model and
    none when it does not; it appends to the log of posted requests and
    leaves the environment and the remote end as they were. *)
Theorem call_posts_at_most_once {rt : PyRuntime}
  (self : FactChatClient) (model user_text : string) (kwargs : dict) (w : World) :
  environ (snd (call self model user_text kwargs w)) = environ w
  /\ transport (snd (call self model user_text kwargs w)) = transport w
  /\ ((exists route rq,
          router model = Ok route
          /\ posted (snd (call self model user_text kwargs w)) = (posted w ++ [rq])%list)
      \/ (exists e,
            router model = Raise e
            /\ call self model user_text kwargs w = (Raise e, w))).
Proof.
  destruct (router model) as [[path provider]|e] eqn:Hr.
  - destruct (@build_payload_of_route _ model user_text path provider kwargs Hr)
      as [payload Hb].
    rewrite (@call_eq _ self model user_text kwargs payload path provider w Hr Hb).
    cbn zeta.
    assert (F : forall x : result LLMResponse,
               environ (snd (x, logged w (request_of self path payload))) = environ w
               /\ transport (snd (x, logged w (request_of self path payload))) = transport w
               /\ ((exists route rq,
                      Ok (path, provider) = Ok route
                      /\ posted (snd (x, logged w (request_of self path payload)))
                         = (posted w ++ [rq])%list)
                   \/ (exists e,
                         @Ok (string * string) (path, provider) = Raise e
                         /\ (x, logged w (request_of self path payload)) = (Raise e, w)))).
    { intros x. split; [reflexivity|]. split; [reflexivity|].
      left. eexists; eexists. split; reflexivity. }
    destruct (transport w (posted w) _) as [e|st body]; [apply F|].
    destruct ((400 <=? st) && (st <? 600))%Z; [apply F|].
    destruct body; apply F.
  - rewrite (@call_refused _ self model user_text kwargs e w Hr).
    split; [reflexivity|]. split; [reflexivity|].
    right. exists e. split; reflexivity.
Qed.

(** X14. After routing, a call can fail in three ways, each with the
    request already posted: the exception [requests.post] raised, passed on
    as it is; the HTTP error for a status from 400 to 599, whatever the
    body holds; the decode error for a body that is not JSON under any
    other status. *)
Theorem call_failure_kinds {rt : PyRuntime}
  (self : FactChatClient) (model user_text : string) (kwargs payload : dict)
  (path provider : string) (w : World) :
  router model = Ok (path, provider) ->
  build_payload model user_text kwargs = Ok payload ->
  let rq := request_of self path payload in
  (forall e,
      transport w (posted w) rq = NoReply e ->
      call self model user_text kwargs w = (Raise e, logged w rq))
  /\ (forall st body,
        transport w (posted w) rq = Answer st body ->
        error_status st ->
        call self model user_text kwargs w = (Raise (HTTPError st), logged w rq))
  /\ (forall st,
        transport w (posted w) rq = Answer st None ->
        ~ error_status st ->
        call self model user_text kwargs w = (Raise JSONDecodeError, logged w rq)).
Proof.
  intros Hr Hb rq.
  pose proof (@call_eq _ self model user_text kwargs payload path provider w Hr Hb) as E.
  cbn zeta in E. fold rq in E.
  split; [|split].
  - intros e Ht. now rewrite E, Ht.
  - intros st body Ht Hs. apply error_status_test in Hs. now rewrite E, Ht, Hs.
  - intros st Ht Hs. apply error_status_test_not in Hs. now rewrite E, Ht, Hs.
Qed.

(** X15. When the remote end answers a routed call with a status outside
    400 to 599 and a body that decodes, the outcome of the call is the
    outcome of the normaliser on that body for the routed provider: its
    result, or its exception. *)
Theorem call_returns_the_parse {rt : PyRuntime}
  (self : FactChatClient) (model user_text : string) (kwargs payload : dict)
  (path provider : string) (w : World) (st : Z) (data : pyval) :
  router model = Ok (path, provider) ->
  build_payload model user_text kwargs = Ok payload ->
  transport w (posted w) (request_of self path payload) = Answer st (Some data) ->
  ~ error_status st ->
  call self model user_text kwargs w =
    (_parse_result provider data, logged w (request_of self path payload)).
Proof.
  intros Hr Hb Ht Hs. apply error_status_test_not in Hs.
  rewrite (@call_eq _ self model user_text kwargs payload path provider w Hr Hb).
  cbn zeta. now rewrite Ht, Hs.
Qed.

(** X16. End to end: when the answer to a routed call has a good status
    and a mapping for body, the call returns the content of the first
    choice's message as text if that content is a string, and the rendering
    of the whole body as text, with no finish reason, if the body has no
    [choices] key (the shape of an Anthropic-style answer); the raw field is
    the body in both cases. *)
Theorem call_text_end_to_end {rt : PyRuntime}
  (self : FactChatClient) (model user_text : string) (kwargs payload : dict)
  (path provider : string) (w : World) (st : Z) (d : dict) :
  router model = Ok (path, provider) ->
  build_payload model user_text kwargs = Ok payload ->
  transport w (posted w) (request_of self path payload) = Answer st (Some (PDict d)) ->
  ~ error_status st ->
  (forall cd rest md s,
      dict_get "choices" d = Some (PList (PDict cd :: rest)) ->
      dict_get "message" cd = Some (PDict md) ->
      dict_get "content" md = Some (PStr s) ->
      exists r,
        fst (call self model user_text kwargs w) = Ok r
        /\ text r = PStr s /\ raw r = PDict d)
  /\ (dict_get "choices" d = None ->
      exists r,
        fst (call self model user_text kwargs w) = Ok r
        /\ text r = PStr (py_str (PDict d))
        /\ finish_reason r = PNone /\ raw r = PDict d).
Proof.
  intros Hr Hb Ht Hs. apply error_status_test_not in Hs.
  rewrite (@call_eq _ self model user_text kwargs payload path provider w Hr Hb).
  cbn zeta. rewrite Ht, Hs. cbn [fst]. split.
  - intros cd rest md s Hc Hm Hcont.
    rewrite (parse_primary_eq provider d Hc).
    2: { unfold mapping_or_empty. now rewrite Hm. }
    eexists. split; [reflexivity|]. cbn [text raw]. split; [|reflexivity].
    unfold message_of, get_default. rewrite Hm, Hcont. apply py_or_str.
  - intros Hc. rewrite (parse_fallback_eq provider d).
    2: { unfold absent_or_empty. now rewrite Hc. }
    eexists. split; [reflexivity|]. repeat split.
Qed.

(** ** The scripts *)

Section ScriptFacts.

Context {rt : PyRuntime}.

Lemma take_length (n : nat) (s : string) : String.length (take n s) <= n.
Proof.
  revert s; induction n as [|n IH]; intros [|c s]; simpl; try lia.
  specialize (IH s). lia.
Qed.




End ScriptFacts.

(** X20. [test_factchat.py] needs the credential variable to be set: run
    without it, it ends in a key error before anything is posted or
    printed.  Run with it, it posts exactly one request, to the image path
    under the base address (the environment's, else the default) with the
    trailing slashes of the base removed, with the bearer credential and
    the timeout 180; the model of the body is the first command-line
    argument, or [gpt-5-mini] when there is none. *)
Theorem test_script_request {rt : PyRuntime} (sh : Shell) :
  (getenv "FACTCHAT_API_KEY" sh = None ->
     test_factchat sh = {| outcome := Raise KeyError; requests := []; stdout := [] |})
  /\ (forall key base0 nb,
        getenv "FACTCHAT_API_KEY" sh = Some key ->
        match getenv "FACTCHAT_BASE_URL" sh with
        | Some b => b
        | None => DEFAULT_BASE
        end = base0 ++ Str.replicate nb "/" ->
        Str.last base0 <> Some "/"%char ->
        exists rq,
          requests (test_factchat sh) = [rq]
          /\ url rq = base0 ++ "/openai/images/generate"
          /\ headers rq = [("Authorization", "Bearer " ++ key);
                           ("Content-Type", "application/json")]
          /\ req_timeout rq = 180%Z
          /\ (forall a0 m rest,
                sys_argv sh = a0 :: m :: rest ->
                json rq = [("model", PStr m);
                           ("prompt", PStr "ping test image");
                           ("size", PStr "1024x1024")])
          /\ (length (sys_argv sh) <= 1 ->
              json rq = [("model", PStr "gpt-5-mini");
                         ("prompt", PStr "ping test image");
                         ("size", PStr "1024x1024")])).
Proof.
  split.
  - intros E. unfold test_factchat. now rewrite E.
  - intros key base0 nb E Hb Hl. unfold test_factchat. rewrite E.
    fold DEFAULT_BASE. rewrite Hb, (rstrip_trailing _ _ Hl).
    match goal with
    | |- context [remote sh ?r] => exists r; destruct (remote sh r)
    end; cbn [requests url headers req_timeout json];
      (split; [reflexivity|]; split; [reflexivity|]; split; [reflexivity|];
       split; [reflexivity|]; split;
       [ intros a0 m rest ->; reflexivity
       | destruct (sys_argv sh) as [|a0 [|m rest]]; simpl; intros; try lia; reflexivity ]).
Qed.


(** ** The further properties at concrete inputs *)


Lemma router_two_routes_witness :
  ("anthropic/messages" = "anthropic/messages" /\ "anthropic" = "anthropic")
  \/ ("anthropic/messages" = "openai/chat/completions" /\ "anthropic" = "openai").
Proof.
  exact (proj1 (@router_two_routes "Claude-3-Opus" "anthropic/messages" "anthropic"
                  eq_refl)).
Defined.

Lemma build_payload_fails_as_router_witness :
  build_payload (rt := Ascii7.runtime) "gemini-pro" "ping" [("temperature", PInt 0)]
    = Raise (ValueError "Unsupported model: gemini-pro")
  /\ exists payload,
       build_payload (rt := Ascii7.runtime) "claude-3" "ping" [("temperature", PInt 0)]
         = Ok payload.
Proof.
  split.
  - apply (proj1 (@build_payload_fails_as_router Ascii7.runtime "gemini-pro" "ping"
                    [("temperature", PInt 0)] ltac:(kwargs_ok_tac))).
    reflexivity.
  - apply (proj1 (proj2 (@build_payload_fails_as_router Ascii7.runtime "claude-3" "ping"
                           [("temperature", PInt 0)] ltac:(kwargs_ok_tac)))
             ("anthropic/messages", "anthropic")).
    reflexivity.
Defined.

Lemma build_payload_field_order_witness :
  build_payload (rt := Ascii7.runtime) "claude-3-haiku" "ping"
    [("temperature", PInt 0); ("max_tokens", PInt 10); ("top_k", PInt 5)]
  = Ok [("model", PStr "claude-3-haiku");
        ("max_tokens", PInt 10);
        ("messages", PList [PDict [("role", PStr "user"); ("content", PStr "ping")]]);
        ("temperature", PInt 0);
        ("top_k", PInt 5)].
Proof.
  apply (proj1 (@build_payload_field_order Ascii7.runtime "claude-3-haiku" "ping"
                  [("temperature", PInt 0); ("max_tokens", PInt 10); ("top_k", PInt 5)]
                  ltac:(kwargs_ok_tac) eq_refl)).
  ci_prefix_tac "claude-" "3-haiku".
Defined.

Lemma normaliser_returns_exactly_witness :
  exists r,
    _parse_result (rt := Ascii7.runtime) "openai"
      (PDict [("choices", PList [PDict [("message", PNone)]; PInt 7])]) = Ok r.
Proof.
  apply (proj2 (@normaliser_returns_exactly Ascii7.runtime "openai"
                  (PDict [("choices", PList [PDict [("message", PNone)]; PInt 7])]))).
  eexists. split; [reflexivity|]. right.
  exists [("message", PNone)], [PInt 7]. split; reflexivity.
Defined.

Lemma normaliser_error_kinds_witness :
  TypeError = TypeError \/ TypeError = AttributeError \/ TypeError = KeyError.
Proof.
  exact (proj1 (@normaliser_error_kinds Ascii7.runtime "openai"
                  (PDict [("choices", PInt 1)]) TypeError eq_refl)).
Defined.

Lemma normaliser_reads_first_choice_witness :
  result_map parsed_fields
    (_parse_result (rt := Ascii7.runtime) "openai"
       (PDict [("choices",
                PList [PDict [("message", PDict [("content", PStr "a")])];
                       PDict [("message", PDict [("content", PStr "b")])]]);
               ("model", PStr "gpt-4o")]))
  = result_map parsed_fields
      (_parse_result (rt := Ascii7.runtime) "anthropic"
         (PDict [("id", PStr "chatcmpl-1");
                 ("model", PStr "gpt-4o");
                 ("choices",
                  PList [PDict [("message", PDict [("content", PStr "a")])]])])).
Proof.
  apply (@normaliser_reads_first_choice Ascii7.runtime "openai" "anthropic" _ _
           (PDict [("message", PDict [("content", PStr "a")])])
           [PDict [("message", PDict [("content", PStr "b")])]] []);
    reflexivity.
Defined.

Lemma normaliser_field_defaults_witness :
  exists r,
    _parse_result (rt := Ascii7.runtime) "openai"
      (PDict [("choices", PList [PDict [("message", PDict [("content", PInt 0)])]]);
              ("usage", PList [])]) = Ok r
    /\ text r = PStr "" /\ usage r = PDict [].
Proof.
  pose (body := @PDict Ascii7.runtime
                  [("choices", PList [PDict [("message", PDict [("content", PInt 0)])]]);
                   ("usage", PList [])]).
  pose (r := {| text := PStr ""; model := PStr ""; usage := PDict [];
                finish_reason := PNone; raw := body |}).
  destruct (@normaliser_field_defaults Ascii7.runtime "openai" body r eq_refl)
    as (Ht & Hu & _).
  exists r. split; [reflexivity|]. split; [apply Ht | apply Hu]; reflexivity.
Defined.

Lemma normaliser_reparse_raw_witness :
  _parse_result (rt := Ascii7.runtime) "anthropic"
    (raw {| text := PStr "pong";
            model := PStr "gpt-5-mini";
            usage := PDict [("total_tokens", PInt 5)];
            finish_reason := PStr "stop";
            raw := pong_body |})
  = Ok {| text := PStr "pong";
          model := PStr "gpt-5-mini";
          usage := PDict [("total_tokens", PInt 5)];
          finish_reason := PStr "stop";
          raw := pong_body |}.
Proof.
  exact (@normaliser_reparse_raw Ascii7.runtime "openai" "anthropic" pong_body _
           eq_refl).
Defined.

Lemma init_base_and_timeout_witness :
  base_url {| api_key := Some "sk-test";
              base_url := "https://example.test/api";
              timeout := 60 |} = Str.rstrip "/" "https://example.test/api//".
Proof.
  apply (proj1 (proj2 (proj2
           (@init_base_and_timeout Ascii7.runtime (Some "sk-test") None None
              Sample.configured Sample.configured _ eq_refl)))
           "h"%char "ttps://example.test/api//");
    [left|]; reflexivity.
Defined.

Lemma call_request_carries_configuration_witness :
  exists key payload rq,
    api_key {| api_key := Some "sk-test";
               base_url := DEFAULT_BASE;
               timeout := 5 |} = Some key /\ key <> ""
    /\ build_payload (rt := Ascii7.runtime) "gpt-5-mini" "ping" [] = Ok payload
    /\ posted (snd (call {| api_key := Some "sk-test";
                            base_url := DEFAULT_BASE;
                            timeout := 5 |} "gpt-5-mini" "ping" [] Sample.bare))
       = ([] ++ [rq])%list
    /\ headers rq = [("Authorization", "Bearer " ++ key);
                     ("Content-Type", "application/json")]
    /\ json rq = payload
    /\ req_timeout rq = 5%Z.
Proof.
  exact (@call_request_carries_configuration Ascii7.runtime
           (Some "sk-test") None (Some 5%Z) Sample.bare Sample.bare Sample.bare _
           "gpt-5-mini" "ping" "openai/chat/completions" "openai" []
           eq_refl eq_refl).
Defined.

Lemma call_unsupported_model_witness :
  call {| api_key := Some "sk-test"; base_url := DEFAULT_BASE; timeout := 60 |}
    "gemini-pro" "ping" [] Sample.bare
  = (Raise (ValueError "Unsupported model: gemini-pro"), Sample.bare).
Proof.
  apply (@call_unsupported_model Ascii7.runtime); not_ci_prefix_tac.
Defined.

Lemma call_failure_kinds_witness :
  call {| api_key := Some "sk-env"; base_url := DEFAULT_BASE; timeout := 60 |}
    "gpt-5-mini" "ping" [] SampleScripts.offline
  = (Raise RequestException,
     logged SampleScripts.offline
       (request_of {| api_key := Some "sk-env"; base_url := DEFAULT_BASE; timeout := 60 |}
          "openai/chat/completions"
          [("model", PStr "gpt-5-mini"); ("messages", user_messages "ping")]))
  /\ call {| api_key := Some "sk-env"; base_url := DEFAULT_BASE; timeout := 60 |}
       "gpt-5-mini" "ping" [] SampleScripts.unavailable
     = (Raise (HTTPError 503),
        logged SampleScripts.unavailable
          (request_of {| api_key := Some "sk-env"; base_url := DEFAULT_BASE; timeout := 60 |}
             "openai/chat/completions"
             [("model", PStr "gpt-5-mini"); ("messages", user_messages "ping")]))
  /\ call {| api_key := Some "sk-env"; base_url := DEFAULT_BASE; timeout := 60 |}
       "gpt-5-mini" "ping" [] SampleScripts.garbled
     = (Raise JSONDecodeError,
        logged SampleScripts.garbled
          (request_of {| api_key := Some "sk-env"; base_url := DEFAULT_BASE; timeout := 60 |}
             "openai/chat/completions"
             [("model", PStr "gpt-5-mini"); ("messages", user_messages "ping")])).
Proof.
  split; [|split].
  - apply (proj1 (@call_failure_kinds Ascii7.runtime _ "gpt-5-mini" "ping" [] _
                    "openai/chat/completions" "openai" SampleScripts.offline
                    eq_refl eq_refl)).
    reflexivity.
  - apply (proj1 (proj2 (@call_failure_kinds Ascii7.runtime _ "gpt-5-mini" "ping" [] _
                           "openai/chat/completions" "openai" SampleScripts.unavailable
                           eq_refl eq_refl))
             503%Z (Some pong_body)).
    + reflexivity.
    + unfold error_status. lia.
  - apply (proj2 (proj2 (@call_failure_kinds Ascii7.runtime _ "gpt-5-mini" "ping" [] _
                           "openai/chat/completions" "openai" SampleScripts.garbled
                           eq_refl eq_refl))
             200%Z).
    + reflexivity.
    + unfold error_status. lia.
Defined.

Lemma call_returns_the_parse_witness :
  call {| api_key := Some "sk-env"; base_url := DEFAULT_BASE; timeout := 60 |}
    "claude-3-haiku" "ping" [] SampleScripts.keyed
  = (_parse_result "anthropic" pong_body,
     logged SampleScripts.keyed
       (request_of {| api_key := Some "sk-env"; base_url := DEFAULT_BASE; timeout := 60 |}
          "anthropic/messages"
          [("model", PStr "claude-3-haiku"); ("max_tokens", PInt 256);
           ("messages", user_messages "ping")])).
Proof.
  apply (@call_returns_the_parse Ascii7.runtime _ "claude-3-haiku" "ping" [] _
           "anthropic/messages" "anthropic" SampleScripts.keyed 200%Z pong_body
           eq_refl eq_refl eq_refl).
  unfold error_status. lia.
Defined.

Lemma call_text_end_to_end_witness :
  exists r,
    fst (call {| api_key := Some "sk-env"; base_url := DEFAULT_BASE; timeout := 60 |}
           "gpt-5-mini" "ping" [] SampleScripts.keyed) = Ok r
    /\ text r = PStr "pong" /\ raw r = pong_body.
Proof.
  apply (proj1 (@call_text_end_to_end Ascii7.runtime
                  {| api_key := Some "sk-env"; base_url := DEFAULT_BASE; timeout := 60 |}
                  "gpt-5-mini" "ping" []
                  [("model", PStr "gpt-5-mini"); ("messages", user_messages "ping")]
                  "openai/chat/completions" "openai" SampleScripts.keyed 200%Z
                  [("choices",
                    PList [PDict [("message", PDict [("content", PStr "pong")]);
                                  ("finish_reason", PStr "stop")]]);
                   ("usage", PDict [("total_tokens", PInt 5)]);
                   ("model", PStr "gpt-5-mini")]
                  eq_refl eq_refl eq_refl
                  ltac:(unfold error_status; lia))
           [("message", PDict [("content", PStr "pong")]); ("finish_reason", PStr "stop")]
           [] [("content", PStr "pong")] "pong");
    reflexivity.
Defined.

Lemma test_script_request_witness :
  test_factchat SampleScripts.keyless =
    {| outcome := Raise KeyError; requests := []; stdout := [] |}
  /\ exists rq,
       requests (test_factchat SampleScripts.denied) = [rq]
       /\ url rq = "https://example.test/api/openai/images/generate"
       /\ req_timeout rq = 180%Z
       /\ json rq = [("model", PStr "gpt-image-1");
                     ("prompt", PStr "ping test image");
                     ("size", PStr "1024x1024")].
Proof.
  split.
  - apply (proj1 (@test_script_request Ascii7.runtime SampleScripts.keyless)).
    reflexivity.
  - destruct (proj2 (@test_script_request Ascii7.runtime SampleScripts.denied)
                "sk-env" "https://example.test/api" 1 eq_refl eq_refl)
      as (rq & Hreq & Hurl & _ & Ht & Hm & _).
    + cbn. discriminate.
    + exists rq. split; [exact Hreq|]. split; [exact Hurl|]. split; [exact Ht|].
      apply (Hm "test_factchat.py" "gpt-image-1" []). reflexivity.
Defined.

